(** * Plantopia: DEM to heightmap pipeline

    Shallow embedding of the raster pipeline of Plantopia:
    - [src/backend/app.py]: [process_dem], [process_dem_to_heightmap], [cleanup];
    - [src/Assets/StreamingAssets/Scripts/dem_processor.py] (GDAL script);
    - [src/Assets/StreamingAssets/Scripts/dem_processor_alt.py] (rasterio script).

    Numbers are modelled as exact rationals ([Q]); numpy's float64 cells
    additionally carry NaN and the two infinities ([Fl]).  Where a result
    depends on float64 rounding, the operation is the exact one followed by
    IEEE 754 binary64 rounding to nearest ([F64]). *)

From Stdlib Require Import String Ascii.
From Stdlib Require Import List ZArith QArith Qround Qabs Qminmax Qpower Lia Lqa Bool.
Import ListNotations.

(** ** Results of fallible Python code *)

Inductive py_error :=
| ValueError_empty        (* numpy reduction over an empty array *)
| ValueError_no_points    (* scipy.spatial.Delaunay on an empty point set *)
| QhullError              (* scipy.spatial.Delaunay on flat (collinear) points *)
| OSError_not_found.

Inductive result (A : Type) :=
| Ok (a : A)
| Err (e : py_error).
Arguments Ok {A} a.
Arguments Err {A} e.

Definition bind {A B} (m : result A) (k : A -> result B) : result B :=
  match m with Ok a => k a | Err e => Err e end.

Notation "x <- m ;; k" := (bind m (fun x => k)) (at level 61, m at next level, right associativity).

(** ** Resampler *)

Module Resample.

(** A [NormalizedGrid]: rows of cells. *)
Definition qgrid := list (list Q).

Definition cell (g : qgrid) (r c : nat) : Q := nth c (nth r g []) 0.

Definition nrows (g : qgrid) : nat := length g.

Definition ncols (g : qgrid) : nat := length (hd [] g).

Definition rectangular (h w : nat) (g : qgrid) : Prop :=
  length g = h /\ Forall (fun row => length row = w) g.

(** [scipy.ndimage.zoom] (default [grid_mode=False]): along an axis of
    [n_in] samples resized to [n_out], the zoom used for coordinates is
    [(n_in - 1) / (n_out - 1)], or 1 when [n_out - 1 = 0]. *)
Definition zoom_ratio (n_in n_out : nat) : Q :=
  if Nat.eqb n_out 1 then 1
  else inject_Z (Z.of_nat n_in - 1) / inject_Z (Z.of_nat n_out - 1).

(** Source coordinate of output index [k]: [k * zoom]. *)
Definition src_coord (n_in n_out k : nat) : Q :=
  inject_Z (Z.of_nat k) * zoom_ratio n_in n_out.

(** Order-1 spline along one axis: lower sample, upper sample (the last
    sample is reused at the border) and the weight of the upper sample. *)
Definition lin_split (n : nat) (x : Q) : nat * nat * Q :=
  let i0 := Z.to_nat (Qfloor x) in
  (i0, Nat.min (S i0) (n - 1), x - inject_Z (Qfloor x)).

(** Order-1 (bilinear) interpolation of [g] at the fractional position [(x, y)]. *)
Definition bilinear (g : qgrid) (x y : Q) : Q :=
  let '(r0, r1, tr) := lin_split (nrows g) x in
  let '(c0, c1, tc) := lin_split (ncols g) y in
  (1 - tr) * ((1 - tc) * cell g r0 c0 + tc * cell g r0 c1)
  + tr * ((1 - tc) * cell g r1 c0 + tc * cell g r1 c1).

(** [ndimage.zoom(g, zoom_factor, order=1)] with output shape [out_h x out_w]. *)
Definition zoom_order1 (g : qgrid) (out_h out_w : nat) : qgrid :=
  map (fun i =>
         map (fun j => bilinear g (src_coord (nrows g) out_h i)
                                  (src_coord (ncols g) out_w j))
             (seq 0 out_w))
      (seq 0 out_h).

(** dem_processor.py, dem_processor_alt.py:
    [zoom_factor = (resolution / H, resolution / W)];
    [resized = ndimage.zoom(normalized, zoom_factor, order=1)];
    the output shape is [round(H * resolution / H) = resolution] per axis. *)
Definition resample_unity (g : qgrid) (resolution : nat) : qgrid :=
  zoom_order1 g resolution resolution.

(** The resampler as the specification words it: bilinear interpolation at
    [(i * H / T, j * W / T)], clamped to the last source index. *)
Definition spec_coord (n_in t k : nat) : Q :=
  Qmin (inject_Z (Z.of_nat k) * inject_Z (Z.of_nat n_in) / inject_Z (Z.of_nat t))
       (inject_Z (Z.of_nat n_in - 1)).

Definition spec_resample (g : qgrid) (t : nat) : qgrid :=
  map (fun i =>
         map (fun j => bilinear g (spec_coord (nrows g) t i) (spec_coord (ncols g) t j))
             (seq 0 t))
      (seq 0 t).

(** PIL resampling filters ([Image.NEAREST], ...). *)
Inductive pil_filter := NEAREST | BOX | BILINEAR | HAMMING | BICUBIC | LANCZOS.

(** app.py: [image.resize((resolution, resolution), Image.LANCZOS)]. *)
Definition backend_resize_filter : pil_filter := LANCZOS.

End Resample.

(** ** float64 cells *)

Module Fl.

(** A numpy float64 value: a finite number, NaN or an infinity (signed
    zeros are not distinguished). *)
Inductive fl := Fin (q : Q) | NaN | PInf | NInf.

Definition is_nan (x : fl) : bool := match x with NaN => true | _ => false end.


(** [x == y]: false whenever NaN is involved. *)
Definition eqb (x y : fl) : bool :=
  match x, y with
  | Fin a, Fin b => Qeq_bool a b
  | PInf, PInf | NInf, NInf => true
  | _, _ => false
  end.

(** [x < y]: false whenever NaN is involved. *)
Definition ltb (x y : fl) : bool :=
  match x, y with
  | Fin a, Fin b => negb (Qle_bool b a)
  | NInf, Fin _ | NInf, PInf | Fin _, PInf => true
  | _, _ => false
  end.

Definition gtb (x y : fl) : bool := ltb y x.

Definition neg (x : fl) : fl :=
  match x with Fin a => Fin (- a) | NaN => NaN | PInf => NInf | NInf => PInf end.

Definition add (x y : fl) : fl :=
  match x, y with
  | NaN, _ | _, NaN => NaN
  | Fin a, Fin b => Fin (a + b)
  | PInf, NInf | NInf, PInf => NaN
  | PInf, _ | _, PInf => PInf
  | NInf, _ | _, NInf => NInf
  end.

Definition sub (x y : fl) : fl := add x (neg y).

(** Infinity of the sign of [q] times the infinity [i]; [0 * inf] is NaN. *)
Definition scale_inf (q : Q) (i : fl) : fl :=
  match Qcompare q 0 with Eq => NaN | Gt => i | Lt => neg i end.

Definition mul (x y : fl) : fl :=
  match x, y with
  | NaN, _ | _, NaN => NaN
  | Fin a, Fin b => Fin (a * b)
  | Fin a, i | i, Fin a => scale_inf a i
  | PInf, PInf | NInf, NInf => PInf
  | _, _ => NInf
  end.

Definition div (x y : fl) : fl :=
  match x, y with
  | NaN, _ | _, NaN => NaN
  | Fin a, Fin b =>
      if Qeq_bool b 0 then scale_inf a PInf else Fin (a / b)
  | Fin _, _ => Fin 0
  | PInf, Fin b => match Qcompare b 0 with Lt => NInf | _ => PInf end
  | NInf, Fin b => match Qcompare b 0 with Lt => PInf | _ => NInf end
  | _, _ => NaN
  end.

(** Minimum / maximum of two non-NaN values. *)
Definition min2 (a b : fl) : fl := if ltb b a then b else a.
Definition max2 (a b : fl) : fl := if ltb a b then b else a.

(** [np.min], [np.max]: ValueError on an empty array, NaN as soon as one
    cell is NaN. *)
Definition amin (xs : list fl) : result fl :=
  match xs with
  | [] => Err ValueError_empty
  | y :: ys => Ok (if existsb is_nan xs then NaN else fold_left min2 ys y)
  end.

Definition amax (xs : list fl) : result fl :=
  match xs with
  | [] => Err ValueError_empty
  | y :: ys => Ok (if existsb is_nan xs then NaN else fold_left max2 ys y)
  end.

(** [np.nanmin], [np.nanmax]: NaN cells are skipped (infinite ones are
    not); an all-NaN array gives NaN. *)
Definition nanmin (xs : list fl) : result fl :=
  match xs with
  | [] => Err ValueError_empty
  | _ => match filter (fun x => negb (is_nan x)) xs with
         | [] => Ok NaN
         | y :: ys => Ok (fold_left min2 ys y)
         end
  end.

Definition nanmax (xs : list fl) : result fl :=
  match xs with
  | [] => Err ValueError_empty
  | _ => match filter (fun x => negb (is_nan x)) xs with
         | [] => Ok NaN
         | y :: ys => Ok (fold_left max2 ys y)
         end
  end.



End Fl.

Import Fl.

(** ** float64 rounding *)

Module F64.

(** [2 ^ e] for an integer exponent. *)
Definition pow2 (e : Z) : Q := Qpower (2 # 1) e.

(** [floor(log2 q)] for [q > 0]. *)
Definition flog2 (q : Q) : Z :=
  let t := (Z.log2 (Qnum q) - Z.log2 (Zpos (Qden q)))%Z in
  if Qle_bool (pow2 t) q then t else (t - 1)%Z.

(** Nearest integer, ties to even. *)
Definition rne (q : Q) : Z :=
  let f := Qfloor q in
  match Qcompare (q - inject_Z f) (1 # 2) with
  | Lt => f
  | Gt => (f + 1)%Z
  | Eq => if Z.even f then f else (f + 1)%Z
  end.

(** The exponent of the last significand bit of a binary64 value of the
    magnitude of [q > 0]: 53-bit significands, subnormals below [2^-1022]. *)
Definition exponent (q : Q) : Z := Z.max (-1074) (flog2 q - 52).

(** [q > 0] rounded to binary64 precision, exponent range unbounded above. *)
Definition round_pos (q : Q) : Q :=
  inject_Z (rne (q / pow2 (exponent q))) * pow2 (exponent q).

(** IEEE 754 binary64 rounding (to nearest, ties to even) of an exact
    result; a magnitude that rounds to [2^1024] or more overflows to an
    infinity.  NaN and the infinities are kept. *)
Definition round (x : fl) : fl :=
  match x with
  | Fin q =>
      match Qcompare q 0 with
      | Eq => Fin 0
      | Gt => let r := round_pos q in if Qle_bool (pow2 1024) r then PInf else Fin r
      | Lt => let r := round_pos (- q) in if Qle_bool (pow2 1024) r then NInf else Fin (- r)
      end
  | _ => x
  end.

(** float64 arithmetic: the exact result, rounded. *)
Definition fadd (x y : fl) : fl := round (add x y).
Definition fsub (x y : fl) : fl := round (sub x y).
Definition fmul (x y : fl) : fl := round (mul x y).
Definition fdiv (x y : fl) : fl := round (div x y).

End F64.

Import F64.

(** An [ElevationGrid] as read by [src.read(1)] / [band.ReadAsArray()]. *)
Definition grid := list (list fl).


(** [np.zeros_like(g)]. *)
Definition zeros_like (g : grid) : grid := map (map (fun _ => Fin 0)) g.

(** [np.where(g == nodata, np.nan, g)]. *)
Definition mask_nodata (nodata : fl) (g : grid) : grid :=
  map (map (fun x => if eqb x nodata then NaN else x)) g.

(** ** Normalizer *)

Module Normalize.

(** [(g - mn) / (mx - mn)], cell by cell. *)
Definition rescale (mn mx : fl) (g : grid) : grid :=
  map (map (fun x => div (sub x mn) (sub mx mn))) g.

(** app.py, [process_dem_to_heightmap], lines 276-282. *)
Definition normalize_backend (g : grid) : result grid :=
  mn <- nanmin (concat g) ;;
  mx <- nanmax (concat g) ;;
  Ok (if gtb mx mn then rescale mn mx g else zeros_like g).





End Normalize.

(** ** Gap Filler (app.py, [process_dem_to_heightmap], lines 250-273) *)

Module GapFill.

(** A grid position [(row, col)], as produced by [np.nonzero] and [np.mgrid]. *)
Definition point := (Z * Z)%type.

Definition enumerate {A} (l : list A) : list (nat * A) := combine (seq 0 (length l)) l.

(** Every cell with its position, in row-major order. *)
Definition indexed (g : grid) : list (point * fl) :=
  flat_map (fun '(r, row) => map (fun '(c, x) => ((Z.of_nat r, Z.of_nat c), x)) (enumerate row))
           (enumerate g).

(** [mask = ~np.isnan(g)]; [coords = np.array(np.nonzero(mask)).T];
    [values = g[mask]]: the known samples, row-major. *)
Definition known (g : grid) : list (point * fl) :=
  filter (fun s => negb (is_nan (snd s))) (indexed g).

(** Twice the signed area of the triangle [a b c]. *)
Definition cross (a b c : point) : Z :=
  (fst b - fst a) * (snd c - snd a) - (snd b - snd a) * (fst c - fst a).

(** [p] lies in the closed triangle [a b c] (which is not flat). *)
Definition inside (p a b c : point) : bool :=
  let d := cross a b c in
  negb (Z.eqb d 0)
  && Z.leb 0 (cross p b c * d) && Z.leb 0 (cross a p c * d) && Z.leb 0 (cross a b p * d).

Definition point_eqb (p q : point) : bool := Z.eqb (fst p) (fst q) && Z.eqb (snd p) (snd q).

Fixpoint pairs {A} (l : list A) : list (A * A) :=
  match l with [] => [] | a :: t => map (fun b => (a, b)) t ++ pairs t end.

Fixpoint triples {A} (l : list A) : list (A * A * A) :=
  match l with [] => [] | a :: t => map (fun '(b, c) => (a, b, c)) (pairs t) ++ triples t end.

(** A triangle of sample points that contains no other sample point: the
    triangles of any triangulation of the samples, the Delaunay one that
    Qhull builds among them, are of this kind. *)
Definition empty_triangle (pts : list point) (a b c : point) : bool :=
  forallb (fun q => point_eqb q a || point_eqb q b || point_eqb q c || negb (inside q a b c)) pts.

(** Barycentric interpolation inside the triangle of samples [sa sb sc]:
    [sum_j c_j * values[vertex_j]], as [LinearNDInterpolator] computes it. *)
Definition barycentric (sa sb sc : point * fl) (p : point) : fl :=
  let '(a, va) := sa in let '(b, vb) := sb in let '(c, vc) := sc in
  let d := inject_Z (cross a b c) in
  add (add (mul (Fin (inject_Z (cross p b c) / d)) va)
           (mul (Fin (inject_Z (cross a p c) / d)) vb))
      (mul (Fin (inject_Z (cross a b p) / d)) vc).

(** Piecewise-linear interpolant of the samples at [p]; [None] outside the
    convex hull of the sample points.  Where several triangulations exist,
    the first empty triangle containing [p] is used: on a point set with a
    single triangulation (e.g. three points) this is the Delaunay one. *)
Definition tri_interp (samples : list (point * fl)) (p : point) : option fl :=
  let pts := map fst samples in
  match find (fun '(sa, sb, sc) =>
                inside p (fst sa) (fst sb) (fst sc) && empty_triangle pts (fst sa) (fst sb) (fst sc))
             (triples samples) with
  | Some (sa, sb, sc) => Some (barycentric sa sb sc p)
  | None => None
  end.

(** Qhull needs three points that are not collinear. *)
Definition spans_plane (pts : list point) : bool :=
  existsb (fun '(a, b, c) => negb (Z.eqb (cross a b c) 0)) (triples pts).

(** [griddata(coords, values, (grid_y, grid_x), method='linear',
    fill_value=fill)] over the [h x w] grid of positions. *)
Definition griddata_linear (samples : list (point * fl)) (h w : nat) (fill : fl) : result grid :=
  match samples with
  | [] => Err ValueError_no_points
  | _ =>
      if spans_plane (map fst samples) then
        Ok (map (fun r => map (fun c =>
                                 match tri_interp samples (Z.of_nat r, Z.of_nat c) with
                                 | Some v => v
                                 | None => fill
                                 end) (seq 0 w)) (seq 0 h))
      else Err QhullError
  end.

(** [np.nanmean(values)] of values without NaN. *)
Definition nanmean (values : list fl) : fl :=
  div (fold_left add values (Fin 0)) (Fin (inject_Z (Z.of_nat (length values)))).

(** Lines 250-273: no-data cells become NaN; if any NaN remains, the whole
    grid is re-evaluated by [griddata] with the mean of the known values
    (or 0 without known values) as [fill_value]. *)
Definition gap_fill (nodata : option fl) (g : grid) : result grid :=
  let g1 := match nodata with Some nd => mask_nodata nd g | None => g end in
  if existsb is_nan (concat g1) then
    let samples := known g1 in
    let values := map snd samples in
    let fill := match values with [] => Fin 0 | _ => nanmean values end in
    griddata_linear samples (length g1) (length (hd [] g1)) fill
  else Ok g1.

End GapFill.

(** ** Quantizer *)

Module Quantize.

(** C conversion of a float to an integer: truncation toward zero.  The
    conversion of NaN and infinities is platform-defined; it is modelled
    as 0. *)
Definition trunc_q (q : Q) : Z := if Qle_bool 0 q then Qfloor q else - Qfloor (- q).

Definition astype_int (x : fl) : Z := match x with Fin q => trunc_q q | _ => 0 end.

(** An [np.uint8] pixel (a PIL mode "L" sample). *)
Definition u8_of_Z (z : Z) : Byte.byte :=
  match Byte.of_N (Z.to_N (z mod 256)) with Some b => b | None => Byte.x00 end.

Definition u8_val (b : Byte.byte) : Z := Z.of_N (Byte.to_N b).

(** [.astype(np.uint8)], [.astype(np.uint16)]. *)
Definition astype_uint8 (x : fl) : Byte.byte := u8_of_Z (astype_int x).

Definition astype_uint16 (x : fl) : Z := astype_int x mod 65536.

(** app.py line 285: [(normalized * 255).astype(np.uint8)]: the float64
    product, truncated. *)
Definition to_L (normalized : grid) : list (list Byte.byte) :=
  map (map (fun x => astype_uint8 (fmul x (Fin 255)))) normalized.

(** app.py line 289: [(np.array(image) / 255.0 * 65535).astype(np.uint16)]. *)
Definition to_16 (image : list (list Byte.byte)) : list (list Z) :=
  map (map (fun b => astype_uint16 (fmul (fdiv (Fin (inject_Z (u8_val b))) (Fin 255)) (Fin 65535))))
      image.



End Quantize.

(** ** Backend pipeline (app.py, [process_dem_to_heightmap]) *)

Module Pipeline.

(** A PIL mode "L" image: rows of bytes. *)
Definition limage := list (list Byte.byte).

Section Backend.

(** PIL's resampling kernel for a size change of an "L" image with the given
    filter; whatever it computes, its result is again an "L" image. *)
Variable resize_kernel : Resample.pil_filter -> nat -> nat -> limage -> limage.

(** [Image.resize((w, h), filter)]: an unchanged size returns a copy. *)
Definition pil_resize (flt : Resample.pil_filter) (w h : nat) (img : limage) : limage :=
  if Nat.eqb h (length img) && Nat.eqb w (length (hd [] img)) then img
  else resize_kernel flt w h img.

(** Lines 248-293: gap fill, normalize, quantize to 8 bits, resize with
    LANCZOS, rescale to 16 bits; the result is the saved PNG's pixels. *)
Definition process_dem_to_heightmap (nodata : option fl) (elevation_data : grid)
    (resolution : nat) : result (list (list Z)) :=
  filled <- GapFill.gap_fill nodata elevation_data ;;
  normalized <- Normalize.normalize_backend filled ;;
  let image := Quantize.to_L normalized in
  let image := pil_resize Resample.backend_resize_filter resolution resolution image in
  Ok (Quantize.to_16 image).

End Backend.

End Pipeline.

(** ** HTTP handlers and scripts: file-system effects *)

Module Api.

Open Scope string_scope.

(** The files present, by path. *)
Definition fs := list string.

Definition UPLOAD_FOLDER := "temp".

(** [os.path.join(UPLOAD_FOLDER, name)] for a relative [name]. *)
Definition join (dir name : string) : string := dir ++ "/" ++ name.

Definition present (files : fs) (p : string) : bool := existsb (String.eqb p) files.

(** Python truthiness of the [file_id] field: absent or empty is falsy. *)
Definition given (file_id : option string) : option string :=
  match file_id with Some s => if String.eqb s "" then None else Some s | None => None end.

(** The JSON body of [/api/process-dem] (integer fields). *)
Record dem_request := { req_file_id : option string; req_resolution : option Z }.

Definition supported_resolutions : list Z := [129; 257; 513; 1025; 2049; 4097]%Z.

(** [data.get('resolution', 513)]. *)
Definition resolution_of (req : dem_request) : Z :=
  match req_resolution req with Some r => r | None => 513%Z end.

(** The response of [/api/cleanup]. *)
Inductive cleanup_response :=
| CleanupStatus (code : nat) (error : string)
| Cleaned (count : nat) (deleted : list string).   (* {'message': ..., 'deleted': deleted} *)

(** One iteration of the loop over [patterns]. *)
Definition cleanup_step (st : list string * fs) (pattern : string) : list string * fs :=
  let '(deleted, files) := st in
  let file_path := join UPLOAD_FOLDER pattern in
  if present files file_path then
    ((deleted ++ [pattern])%list, filter (fun p => negb (String.eqb p file_path)) files)
  else (deleted, files).

(** app.py, [cleanup], lines 358-386. *)
Definition cleanup (files : fs) (file_id : option string) : cleanup_response * fs :=
  match given file_id with
  | None => (CleanupStatus 400 "file_id is required", files)
  | Some id =>
      let patterns := ["dem_" ++ id ++ ".tif"; "dem_" ++ id ++ "_heightmap.png"] in
      let '(deleted, files') := fold_left cleanup_step patterns ([], files) in
      (Cleaned (length deleted) deleted, files')
  end.

End Api.

(** ** Predicates used in the statements *)

Module Props.

(** The finite cells of a flattened grid. *)
Definition fins (xs : list fl) : list Q :=
  flat_map (fun x => match x with Fin q => [q] | _ => [] end) xs.






End Props.

(** ** Python string operations *)

Module PyStr.

Open Scope string_scope.

(** [s.startswith(p)]. *)
Fixpoint starts_with (p s : string) : bool :=
  match p, s with
  | EmptyString, _ => true
  | String a p', String b s' => Ascii.eqb a b && starts_with p' s'
  | String _ _, EmptyString => false
  end.

(** [p in s]. *)
Fixpoint contains (p s : string) : bool :=
  starts_with p s || match s with EmptyString => false | String _ s' => contains p s' end.

(** [s[n:]]. *)
Fixpoint drop (n : nat) (s : string) : string :=
  match n, s with
  | O, _ => s
  | S n', String _ s' => drop n' s'
  | S _, EmptyString => EmptyString
  end.

(** The scan of [s.replace(old, new)] for a non-empty [old]: left to right,
    every occurrence is replaced and skipped; [fuel] bounds the steps. *)
Fixpoint replace_scan (fuel : nat) (old new s : string) : string :=
  match fuel with
  | O => s
  | S f =>
      match s with
      | EmptyString => EmptyString
      | String c s' =>
          if starts_with old s then new ++ replace_scan f old new (drop (String.length old) s)
          else String c (replace_scan f old new s')
      end
  end.

(** [new] before every character of [s] and at its end. *)
Fixpoint interleave (new s : string) : string :=
  match s with EmptyString => new | String c s' => new ++ String c (interleave new s') end.

(** [s.replace(old, new)]; every step of the scan consumes a character, so
    [length s] steps suffice. *)
Definition py_replace (s old new : string) : string :=
  match old with
  | EmptyString => interleave new s
  | _ => replace_scan (String.length s) old new s
  end.

(** No position of [x] starts an occurrence of [old] in [x ++ rest]. *)
Fixpoint no_match_in (old x rest : string) : bool :=
  match x with
  | EmptyString => true
  | String c x' => negb (starts_with old (String c (x' ++ rest))) && no_match_in old x' rest
  end.

(** [str.lower] on ASCII text. *)
Definition lower_char (c : ascii) : ascii :=
  let n := nat_of_ascii c in
  if (65 <=? n)%nat && (n <=? 90)%nat then ascii_of_nat (n + 32)%nat else c.

Fixpoint lower (s : string) : string :=
  match s with EmptyString => EmptyString | String c s' => String (lower_char c) (lower s') end.

(** [s.rsplit(sep, 1)[1]] for a one-character [sep] occurring in [s]: the
    text after its last occurrence. *)
Fixpoint after_last (sep : ascii) (s : string) : string :=
  match s with
  | EmptyString => EmptyString
  | String c s' =>
      if contains (String sep EmptyString) s' then after_last sep s'
      else if Ascii.eqb c sep then s' else EmptyString
  end.

End PyStr.

(** ** app.py: file names, JSON bodies and the other handlers *)

Module Backend.

Import PyStr Api.
Open Scope string_scope.

Definition ALLOWED_EXTENSIONS : list string := ["tif"; "tiff"].

(** app.py, [allowed_file], lines 45-46. *)
Definition allowed_file (filename : string) : bool :=
  contains "." filename
  && existsb (String.eqb (lower (after_last "."%char filename))) ALLOWED_EXTENSIONS.

(** A JSON value of a request body. *)
#[warnings="-register-all"]
Inductive json :=
| JNull
| JBool (b : bool)
| JNum (q : Q)
| JStr (s : string)
| JList (l : list json)
| JObj (fields : list (string * json)).

(** Python truthiness of a decoded JSON value. *)
Definition truthy (j : json) : bool :=
  match j with
  | JNull => false
  | JBool b => b
  | JNum q => negb (Qeq_bool q 0)
  | JStr s => negb (String.eqb s "")
  | JList l => match l with [] => false | _ => true end
  | JObj f => match f with [] => false | _ => true end
  end.

(** [data.get(k) is None]: the key is absent or null. *)
Definition is_none (v : option json) : bool :=
  match v with None | Some JNull => true | _ => false end.

(** A value usable in float arithmetic ([bool] is an [int] in Python);
    anything else raises [TypeError]. *)
Definition num_of (j : json) : option Q :=
  match j with
  | JNum q => Some q
  | JBool b => Some (if b then 1 else 0)
  | _ => None
  end.

(** The file-system and network effects of a request, in order. *)
Inductive ev :=
| OpenTopoGet (api_key : json)   (* requests.get(OPENTOPO_BASE_URL, params=...) *)
| PathExists (path : string)     (* os.path.exists(path) *)
| RasterOpen (path : string)     (* rasterio.open(path) *)
| WriteFile (path : string).     (* open(path, 'wb') / image.save(path) *)

(** A reply: an error status with its message, an exception caught by the
    handler's [except] (status 500, [str(e)] as message), or a success. *)
Inductive reply (A : Type) :=
| Error (code : nat) (msg : string)
| Internal
| Success (a : A).
Arguments Error {A} code msg.
Arguments Internal {A}.
Arguments Success {A} a.

(** [open(path, 'wb')]: creates the file or truncates it. *)
Definition write (files : fs) (p : string) : fs := if present files p then files else (files ++ [p])%list.

Definition run_fs (files : fs) (trace : list ev) : fs :=
  fold_left (fun fs e => match e with WriteFile p => write fs p | _ => fs end) trace files.

(** The JSON body of [/api/download-dem]: each field, when present. *)
Record dl_body := {
  dl_latitude : option json;
  dl_longitude : option json;
  dl_radius_km : option json;
  dl_dem_type : option json;
  dl_api_key : option json }.

Record dl_ok := {
  ok_file_id : string;
  ok_size_bytes : nat;
  ok_south : fl; ok_north : fl; ok_west : fl; ok_east : fl }.

Section Download.

(** [np.cos(np.radians(latitude))], a float64 value. *)
Variable cos_radians : Q -> Q.

(** app.py, [download_dem], lines 123-192.  [OPENTOPO_API_KEY] is the
    environment's key ([""] when unset), [net] the body of the OpenTopography
    answer ([None] when the request raises, [raise_for_status] included) and
    [file_id] the value of [str(uuid.uuid4())]. *)
Definition download_dem (OPENTOPO_API_KEY : string) (data : dl_body) (net : option string)
    (file_id : string) : reply dl_ok * list ev :=
  let radius_km := match dl_radius_km data with Some r => r | None => JNum 10 end in
  if is_none (dl_latitude data) || is_none (dl_longitude data) then
    (Error 400 "Latitude and longitude are required", [])
  else
    match dl_latitude data, dl_longitude data with
    | Some latitude, Some longitude =>
        match num_of radius_km, num_of latitude, num_of longitude with
        | Some r, Some lat, Some lon =>
            let lat_offset := fdiv (Fin r) (Fin 111) in
            let lon_offset := fdiv (Fin r) (fmul (Fin 111) (Fin (cos_radians lat))) in
            let south := fsub (Fin lat) lat_offset in
            let north := fadd (Fin lat) lat_offset in
            let west := fsub (Fin lon) lon_offset in
            let east := fadd (Fin lon) lon_offset in
            let api_key := if String.eqb OPENTOPO_API_KEY "" then dl_api_key data
                           else Some (JStr OPENTOPO_API_KEY) in
            match api_key with
            | Some k =>
                if truthy k then
                  match net with
                  | None => (Internal, [OpenTopoGet k])
                  | Some content =>
                      let output_path := join UPLOAD_FOLDER ("dem_" ++ file_id ++ ".tif") in
                      (Success {| ok_file_id := file_id; ok_size_bytes := String.length content;
                                  ok_south := south; ok_north := north;
                                  ok_west := west; ok_east := east |},
                       [OpenTopoGet k; WriteFile output_path])
                  end
                else (Error 500 "OpenTopography API key not configured", [])
            | None => (Error 500 "OpenTopography API key not configured", [])
            end
        | _, _, _ => (Internal, [])
        end
    | _, _ => (Internal, [])
    end.

End Download.

(** What [rasterio.open(path)] gives for a path: [src.nodata] and
    [src.read(1)], or [None] when the file cannot be read as a raster. *)
Definition rasters := string -> option (option fl * grid).

(** app.py line 292: [dem_path.replace('.tif', '_heightmap.png')]. *)
Definition heightmap_output_path (dem_path : string) : string :=
  py_replace dem_path ".tif" "_heightmap.png".

(** Flask's [send_file(path)] opens a relative [path] under [app.root_path],
    the directory of app.py, while [image_16bit.save(output_path)] writes
    it under the working directory.  [root_files] is what [send_file]
    finds there: [None] when the server runs from the directory of app.py
    (it then sees the working directory's files), [Some fs'] the files
    under [app.root_path] otherwise. *)
Definition send_file_ok (root_files : option fs) (files : fs) (path : string) : bool :=
  present (match root_files with None => files | Some r => r end) path.

Section Process.

Variable resize_kernel : Resample.pil_filter -> nat -> nat -> Pipeline.limage -> Pipeline.limage.

Variable root_files : option fs.

(** app.py, [process_dem] (lines 206-238) calling [process_dem_to_heightmap]
    (lines 241-301): the reply ([send_file] of the saved heightmap under its
    download name) and the I/O performed.  An exception of the pipeline or
    of [send_file] (a missing file) is answered with status 500. *)
Definition process_dem_run (files : fs) (rs : rasters) (req : dem_request)
  : reply (string * string) * list ev :=
  let resolution := resolution_of req in
  match given (req_file_id req) with
  | None => (Error 400 "file_id is required", [])
  | Some file_id =>
      if negb (existsb (Z.eqb resolution) supported_resolutions) then
        (Error 400 "Invalid resolution. Must be 2^n + 1", [])
      else
        let dem_path := join UPLOAD_FOLDER ("dem_" ++ file_id ++ ".tif") in
        if negb (present files dem_path) then
          (Error 404 ("DEM file not found: " ++ file_id), [PathExists dem_path])
        else
          match rs dem_path with
          | None => (Internal, [PathExists dem_path; RasterOpen dem_path])
          | Some (nodata, elevation_data) =>
              match Pipeline.process_dem_to_heightmap resize_kernel nodata elevation_data
                      (Z.to_nat resolution) with
              | Err _ => (Internal, [PathExists dem_path; RasterOpen dem_path])
              | Ok _ =>
                  let output_path := heightmap_output_path dem_path in
                  let tr := [PathExists dem_path; RasterOpen dem_path; WriteFile output_path] in
                  if send_file_ok root_files (write files output_path) output_path then
                    (Success (output_path, "heightmap_" ++ file_id ++ ".png"), tr)
                  else (Internal, tr)
              end
          end
  end.

End Process.

Record dem_info := { min_elevation : fl; max_elevation : fl; size : list nat }.

(** app.py, [process_dem_info], lines 312-348 (bounds and CRS left out). *)
Definition process_dem_info (files : fs) (rs : rasters) (file_id : option string) : reply dem_info :=
  match given file_id with
  | None => Error 400 "file_id is required"
  | Some id =>
      let dem_path := join UPLOAD_FOLDER ("dem_" ++ id ++ ".tif") in
      if negb (present files dem_path) then Error 404 ("DEM file not found: " ++ id)
      else
        match rs dem_path with
        | None => Internal
        | Some (nodata, data) =>
            let elevation_data := match nodata with Some nd => mask_nodata nd data | None => data end in
            match nanmin (concat elevation_data), nanmax (concat elevation_data) with
            | Ok min_elev, Ok max_elev =>
                Success {| min_elevation := min_elev; max_elevation := max_elev;
                           size := [length elevation_data; length (hd [] elevation_data)] |}
            | _, _ => Internal
            end
        end
  end.

End Backend.

(** ** Scripts/utils/image_utils.py *)

Module ImageUtils.

(** [normalize_heightmap(heightmap, min_val, max_val)], lines 36-43, on a
    float64 heightmap (so [np.full_like] keeps the float64 dtype); every
    numpy operation is rounded to float64. *)
Definition normalize_heightmap (heightmap : grid) (min_val max_val : fl) : result grid :=
  h_min <- amin (concat heightmap) ;;
  h_max <- amax (concat heightmap) ;;
  if eqb h_max h_min then Ok (map (map (fun _ => min_val)) heightmap)
  else
    Ok (map (map (fun x => fadd (fmul (fdiv (fsub x h_min) (fsub h_max h_min)) (fsub max_val min_val))
                                min_val)) heightmap).

(** [resize_heightmap(heightmap, (width, height))], lines 57-59, on a
    heightmap of finite values: [zoom_factor = (height / H, width / W)], an
    output of [round(H * height / H) = height] rows; [None] for the
    [ZeroDivisionError] of an empty axis. *)
Definition resize_heightmap (heightmap : Resample.qgrid) (target_size : nat * nat)
  : option Resample.qgrid :=
  let '(width, height) := target_size in
  if Nat.eqb (Resample.nrows heightmap) 0 || Nat.eqb (Resample.ncols heightmap) 0 then None
  else Some (Resample.zoom_order1 heightmap height width).

(** [save_heightmap_16bit], line 71: [(heightmap * 65535).astype(np.uint16)]. *)
Definition save_heightmap_16bit (heightmap : grid) : list (list Z) :=
  map (map (fun x => Quantize.astype_uint16 (fmul x (Fin 65535)))) heightmap.

(** [save_heightmap_8bit], line 87: [(heightmap * 255).astype(np.uint8)]. *)
Definition save_heightmap_8bit (heightmap : grid) : list (list Byte.byte) :=
  map (map (fun x => Quantize.astype_uint8 (fmul x (Fin 255)))) heightmap.

End ImageUtils.

(** ** Scripts/dem_processor.py: the command line *)

Module Script.

Import PyStr Api.
Open Scope string_scope.

(** File-system and raster I/O of a run, in order. *)
Inductive ev :=
| Exists (p : string)      (* os.path.exists *)
| Open (p : string)        (* gdal.Open *)
| MkDirs (p : string)      (* os.makedirs(p, exist_ok=True) *)
| SaveImage (p : string).  (* image.save *)

(** [int(s)] on ASCII text: surrounding whitespace, an optional sign,
    decimal digits with single underscores between digits. *)
Definition is_space (c : ascii) : bool :=
  match nat_of_ascii c with 9%nat | 10%nat | 11%nat | 12%nat | 13%nat | 32%nat => true | _ => false end.

Definition is_digit (c : ascii) : bool :=
  let n := nat_of_ascii c in (48 <=? n)%nat && (n <=? 57)%nat.

Fixpoint digits_val (acc : Z) (prev_digit : bool) (l : list ascii) : option Z :=
  match l with
  | [] => if prev_digit then Some acc else None
  | c :: t =>
      if is_digit c then digits_val (acc * 10 + Z.of_nat (nat_of_ascii c - 48)%nat) true t
      else if Ascii.eqb c "_" && prev_digit then digits_val acc false t
      else None
  end.

Fixpoint strip_left (l : list ascii) : list ascii :=
  match l with c :: t => if is_space c then strip_left t else l | [] => [] end.

Definition strip (l : list ascii) : list ascii := rev (strip_left (rev (strip_left l))).

Definition py_int (s : string) : option Z :=
  match strip (list_ascii_of_string s) with
  | c :: t =>
      if Ascii.eqb c "-" then option_map Z.opp (digits_val 0 false t)
      else if Ascii.eqb c "+" then digits_val 0 false t
      else digits_val 0 false (c :: t)
  | [] => None
  end.

(** [os.path.dirname] (posixpath): the text up to the last "/", trailing
    slashes removed unless it is made of slashes only. *)
Fixpoint upto_slash (rl : list ascii) : list ascii :=
  match rl with [] => [] | c :: t => if Ascii.eqb c "/" then rl else upto_slash t end.

Fixpoint drop_slashes (rl : list ascii) : list ascii :=
  match rl with [] => [] | c :: t => if Ascii.eqb c "/" then drop_slashes t else rl end.

Definition py_dirname (p : string) : string :=
  let rhead := upto_slash (rev (list_ascii_of_string p)) in
  if forallb (fun c => Ascii.eqb c "/") rhead then string_of_list_ascii (rev rhead)
  else string_of_list_ascii (rev (drop_slashes rhead)).

(** [os.makedirs(name, exist_ok=True)] succeeds, directories aside: an empty
    name raises [FileNotFoundError], a name taken by a file
    [FileExistsError]. *)
Definition makedirs_ok (files : fs) (name : string) : bool :=
  negb (String.eqb name "") && negb (present files name).

Inductive outcome := Returned | Raised | SysExit (code : Z).

Section Run.

(** Lines 38-59 of [process_dem_to_heightmap]: band 1 normalized, zoomed
    and cast to 16 bits; [None] when this raises. *)
Variable heightmap_of : grid -> Z -> option (list (list Z)).

(** [process_dem_to_heightmap(dem_path, output_path, resolution)], lines
    27-73; [rs p] is what [gdal.Open(p)] reads ([None]: it returns [None]). *)
Definition process_dem_to_heightmap (files : fs) (rs : string -> option grid)
    (dem_path output_path : string) (resolution : Z) : outcome * list ev :=
  match rs dem_path with
  | None => (SysExit 1, [Open dem_path])
  | Some elevation_data =>
      match heightmap_of elevation_data resolution with
      | None => (Raised, [Open dem_path])
      | Some _ =>
          let d := py_dirname output_path in
          if makedirs_ok files d then (Returned, [Open dem_path; MkDirs d; SaveImage output_path])
          else (Raised, [Open dem_path; MkDirs d])
      end
  end.

(** [main()], lines 76-97: the exit status and the I/O.  A [ValueError] of
    [int(sys.argv[3])] is raised outside the [try]: a traceback, status 1. *)
Definition main (files : fs) (rs : string -> option grid) (argv : list string) : Z * list ev :=
  if (length argv <? 3)%nat then (1%Z, [])
  else
    let dem_path := nth 1 argv "" in
    let output_path := nth 2 argv "" in
    match (if (3 <? length argv)%nat then py_int (nth 3 argv "") else Some 513%Z) with
    | None => (1%Z, [])
    | Some resolution =>
        if negb (present files dem_path) then (1%Z, [Exists dem_path])
        else
          let '(o, tr) := process_dem_to_heightmap files rs dem_path output_path resolution in
          (match o with Returned => 0%Z | Raised => 1%Z | SysExit c => c end, Exists dem_path :: tr)
    end.

End Run.




End Script.

(** ** backend/n8n_client.py: request headers *)

Module N8N.

Open Scope string_scope.

(** A Python [dict] of strings, in insertion order. *)
Definition dict := list (string * string).

Fixpoint dict_get (d : dict) (k : string) : option string :=
  match d with [] => None | (k', v) :: t => if String.eqb k k' then Some v else dict_get t k end.

(** [d[k] = v]: an existing key keeps its place. *)
Fixpoint dict_set (d : dict) (k v : string) : dict :=
  match d with
  | [] => [(k, v)]
  | (k', v') :: t => if String.eqb k k' then (k, v) :: t else (k', v') :: dict_set t k v
  end.

(** [d.update(e)]. *)
Definition dict_update (d e : dict) : dict := fold_left (fun acc '(k, v) => dict_set acc k v) e d.

(** [N8NClient.call_webhook], lines 43-51: the headers of the POST;
    [api_key] is [os.getenv("N8N_API_KEY")]. *)
Definition request_headers (api_key : option string) (headers : option dict) : dict :=
  let h := [("Content-Type", "application/json")] in
  let h := match api_key with
           | Some key => if String.eqb key "" then h else dict_set h "X-N8N-API-KEY" key
           | None => h
           end in
  match headers with
  | Some e => match e with [] => h | _ => dict_update h e end
  | None => h
  end.

End N8N.

(** * Proofs *)

(** ** List helpers *)

Lemma nth_map_seq {A} (f : nat -> A) (n i : nat) (d : A) :
  (i < n)%nat -> nth i (map f (seq 0 n)) d = f i.
Proof.
  intros Hi.
  rewrite (nth_indep _ d (f 0%nat)) by (rewrite length_map, length_seq; exact Hi).
  rewrite map_nth, seq_nth by exact Hi. reflexivity.
Qed.

Lemma length_map_seq {A} (f : nat -> A) (n : nat) : length (map f (seq 0 n)) = n.
Proof. rewrite length_map, length_seq. reflexivity. Qed.




(** ** float64 rounding *)

Module F64Facts.
Import F64.





Lemma pow2_lt (a b : Z) : (a < b)%Z -> pow2 a < pow2 b.
Proof. intros H. apply Qpower_lt_compat_l; [exact H | reflexivity]. Qed.


















End F64Facts.

(** ** Cleanup *)

Module ApiFacts.
Import Api.
Open Scope string_scope.

Lemma present_filtered (files : fs) (x : string) :
  present (filter (fun p => negb (String.eqb p x)) files) x = false.
Proof.
  induction files as [|a t IH]; simpl; [reflexivity|].
  destruct (String.eqb a x) eqn:E; simpl; [exact IH|].
  rewrite IH, orb_false_r.
  destruct (String.eqb x a) eqn:E'; [|reflexivity].
  apply String.eqb_eq in E'. subst. rewrite String.eqb_refl in E. discriminate.
Qed.

Lemma present_filter_keep (files : fs) (x q : string) :
  present files q = false -> present (filter (fun p => negb (String.eqb p x)) files) q = false.
Proof.
  induction files as [|a t IH]; simpl; [reflexivity|].
  intros H. apply orb_false_iff in H as [Ha Ht].
  destruct (negb (String.eqb a x)); simpl; rewrite ?Ha, ?IH by exact Ht; reflexivity.
Qed.

Lemma step_keeps_absent (st : list string * fs) (pat q : string) :
  present (snd st) q = false -> present (snd (cleanup_step st pat)) q = false.
Proof.
  destruct st as [d files]; simpl. intros H.
  destruct (present files (join UPLOAD_FOLDER pat)); simpl; [apply present_filter_keep|]; exact H.
Qed.

Lemma step_removes (st : list string * fs) (pat : string) :
  present (snd (cleanup_step st pat)) (join UPLOAD_FOLDER pat) = false.
Proof.
  destruct st as [d files]; simpl.
  destruct (present files (join UPLOAD_FOLDER pat)) eqn:E; simpl; [apply present_filtered | exact E].
Qed.

Lemma step_absent_noop (d : list string) (files : fs) (pat : string) :
  present files (join UPLOAD_FOLDER pat) = false -> cleanup_step (d, files) pat = (d, files).
Proof. intros H. simpl. rewrite H. reflexivity. Qed.

(** Claim C9: for a non-empty [file_id] (an absent or empty one is refused
    with 400 by both calls), a second cleanup right after a first one
    answers with an empty [deleted] list and no error, and changes nothing. *)
Theorem cleanup_idempotent (files : fs) (file_id : string) :
  file_id <> "" ->
  let '(_, files1) := cleanup files (Some file_id) in
  cleanup files1 (Some file_id) = (Cleaned 0 [], files1).
Proof.
  intros Hid. unfold cleanup, given.
  destruct (String.eqb file_id "") eqn:E; [apply String.eqb_eq in E; contradiction|].
  set (p1 := "dem_" ++ file_id ++ ".tif"). set (p2 := "dem_" ++ file_id ++ "_heightmap.png").
  cbn [fold_left].
  destruct (cleanup_step ([], files) p1) as [d1 f1] eqn:E1.
  destruct (cleanup_step (d1, f1) p2) as [d2 f2] eqn:E2.
  assert (H1 : present f2 (join UPLOAD_FOLDER p1) = false).
  { change f2 with (snd (d2, f2)). rewrite <- E2. apply step_keeps_absent.
    change f1 with (snd (d1, f1)). rewrite <- E1. apply step_removes. }
  assert (H2 : present f2 (join UPLOAD_FOLDER p2) = false).
  { change f2 with (snd (d2, f2)). rewrite <- E2. apply step_removes. }
  cbn [fold_left].
  rewrite (step_absent_noop [] f2 p1 H1), (step_absent_noop [] f2 p2 H2). reflexivity.
Qed.

Lemma cleanup_idempotent_witness :
  "3f2a" <> "" /\
  (let '(_, files1) := cleanup ["temp/dem_3f2a.tif"; "temp/other.tif"] (Some "3f2a") in
   cleanup files1 (Some "3f2a") = (Cleaned 0 [], files1)).
Proof.
  split; [discriminate|].
  apply (cleanup_idempotent ["temp/dem_3f2a.tif"; "temp/other.tif"] "3f2a"). discriminate.
Defined.

End ApiFacts.

(** ** Quantizer *)

Module QuantizeFacts.
Import Quantize F64Facts.


Lemma u8_val_bounded (b : Byte.byte) : (0 <= u8_val b <= 255)%Z.
Proof. unfold u8_val. pose proof (Byte.to_N_bounded b). lia. Qed.






End QuantizeFacts.

(** ** Backend 16-bit output *)

Module PipelineFacts.
Import Quantize QuantizeFacts Pipeline.

(** [k / 255.0 * 65535] is exactly [257 * k] in float64, for each of the
    256 pixel values [k]. *)
Lemma byte_to_16 (b : Byte.byte) :
  exists k, (0 <= k <= 255)%Z
    /\ astype_uint16 (fmul (fdiv (Fin (inject_Z (u8_val b))) (Fin 255)) (Fin 65535)) = (257 * k)%Z.
Proof.
  exists (u8_val b). split; [apply u8_val_bounded|].
  destruct b; vm_compute; reflexivity.
Qed.

(** Claim C10: every pixel of the backend's 16-bit heightmap is [257 * k]
    for some [k] in [[0, 255]], whatever the LANCZOS resize computes: the
    grid is quantized to 8 bits before it is rescaled by [65535 / 255]. *)
Theorem backend_16bit_levels
    (resize_kernel : Resample.pil_filter -> nat -> nat -> limage -> limage)
    (nodata : option fl) (elevation_data : grid) (resolution : nat) (out : list (list Z)) :
  process_dem_to_heightmap resize_kernel nodata elevation_data resolution = Ok out ->
  Forall (Forall (fun px => exists k, (0 <= k <= 255)%Z /\ px = (257 * k)%Z)) out.
Proof.
  unfold process_dem_to_heightmap.
  destruct (GapFill.gap_fill nodata elevation_data) as [filled|e]; simpl; [|discriminate].
  destruct (Normalize.normalize_backend filled) as [normalized|e]; simpl; [|discriminate].
  intros H. injection H as <-. unfold to_16.
  apply Forall_map, Forall_forall. intros row _.
  apply Forall_map, Forall_forall. intros b _.
  apply byte_to_16.
Qed.


Lemma backend_16bit_levels_witness :
  process_dem_to_heightmap (fun _ _ _ img => img) (Some (Fin (-9999)))
    [[Fin 100; Fin 250]; [Fin 175; Fin 130]] 2 = Ok [[0; 65535]; [32639; 13107]]%Z
  /\ Forall (Forall (fun px => exists k, (0 <= k <= 255)%Z /\ px = (257 * k)%Z))
       [[0; 65535]; [32639; 13107]]%Z.
Proof.
  assert (H : process_dem_to_heightmap (fun _ _ _ img => img) (Some (Fin (-9999)))
                [[Fin 100; Fin 250]; [Fin 175; Fin 130]] 2 = Ok [[0; 65535]; [32639; 13107]]%Z)
    by (vm_compute; reflexivity).
  split; [exact H | exact (backend_16bit_levels _ _ _ _ _ H)].
Defined.

End PipelineFacts.

(** ** Resampler *)

Module ResampleFacts.
Import Resample.

Lemma zoom_ratio_same (n : nat) : zoom_ratio n n == 1.
Proof.
  unfold zoom_ratio. destruct (Nat.eqb n 1) eqn:E; [reflexivity|].
  apply Nat.eqb_neq in E. unfold Qdiv.
  destruct (Nat.eq_dec n 0) as [->|Hn].
  - reflexivity.
  - apply Qmult_inv_r. unfold Qeq; simpl. lia.
Qed.

Lemma src_coord_same (n k : nat) : src_coord n n k == inject_Z (Z.of_nat k).
Proof. unfold src_coord. rewrite zoom_ratio_same. apply Qmult_1_r. Qed.

Lemma lin_split_at (n k : nat) (x : Q) :
  x == inject_Z (Z.of_nat k) ->
  lin_split n x = (k, Nat.min (S k) (n - 1), x - inject_Z (Z.of_nat k)).
Proof.
  intros Hx. unfold lin_split.
  rewrite (Qfloor_comp _ _ Hx), Qfloor_Z, Nat2Z.id. reflexivity.
Qed.

(** Order-1 interpolation at an integer position returns that sample. *)
Lemma bilinear_at_sample (g : qgrid) (i j : nat) (x y : Q) :
  x == inject_Z (Z.of_nat i) -> y == inject_Z (Z.of_nat j) ->
  bilinear g x y == cell g i j.
Proof.
  intros Hx Hy. unfold bilinear.
  rewrite (lin_split_at _ _ _ Hx), (lin_split_at _ _ _ Hy). cbv beta iota.
  assert (Htr : x - inject_Z (Z.of_nat i) == 0) by (rewrite Hx; ring).
  assert (Htc : y - inject_Z (Z.of_nat j) == 0) by (rewrite Hy; ring).
  rewrite Htr, Htc. ring.
Qed.

Lemma cell_zoom (g : qgrid) (out_h out_w i j : nat) :
  (i < out_h)%nat -> (j < out_w)%nat ->
  cell (zoom_order1 g out_h out_w) i j
  = bilinear g (src_coord (nrows g) out_h i) (src_coord (ncols g) out_w j).
Proof.
  intros Hi Hj. unfold cell, zoom_order1.
  rewrite nth_map_seq by exact Hi. rewrite nth_map_seq by exact Hj. reflexivity.
Qed.

Lemma zoom_shape (g : qgrid) (out_h out_w : nat) : rectangular out_h out_w (zoom_order1 g out_h out_w).
Proof.
  split; [apply length_map_seq|].
  unfold zoom_order1. apply Forall_map, Forall_forall. intros i _. apply length_map_seq.
Qed.

(** Claim C8: resampling an [H x W] grid to [H x W] gives the grid back:
    [ndimage.zoom] (the Unity scripts) returns every sample exactly, so in
    particular within [1e-6]; PIL's [resize] (the backend) returns a copy
    of an image whose size does not change. *)
Theorem resample_identity (g : qgrid) (h w : nat) :
  rectangular h w g ->
  rectangular h w (zoom_order1 g h w)
  /\ (forall i j, (i < h)%nat -> (j < w)%nat ->
        cell (zoom_order1 g h w) i j == cell g i j
        /\ Qabs (cell (zoom_order1 g h w) i j - cell g i j) <= 1 # 1000000)
  /\ (forall resize_kernel flt (img : Pipeline.limage),
        Pipeline.pil_resize resize_kernel flt (length (hd [] img)) (length img) img = img).
Proof.
  intros [Hlen Hrows]. split; [apply zoom_shape|]. split.
  - intros i j Hi Hj.
    assert (Hc : ncols g = w).
    { unfold ncols. destruct g as [|row rest]; simpl in Hlen; [lia|].
      inversion Hrows; assumption. }
    assert (Heq : cell (zoom_order1 g h w) i j == cell g i j).
    { rewrite cell_zoom by assumption. unfold nrows. rewrite Hlen, Hc.
      apply bilinear_at_sample; apply src_coord_same. }
    split; [exact Heq|].
    assert (H0 : cell (zoom_order1 g h w) i j - cell g i j == 0) by (rewrite Heq; ring).
    rewrite H0. discriminate.
  - intros resize_kernel flt img. unfold Pipeline.pil_resize.
    rewrite !Nat.eqb_refl. reflexivity.
Qed.

Lemma resample_identity_witness :
  rectangular 2 3 [[0; 1 # 2; 1]; [1 # 4; 3 # 4; 0]]
  /\ rectangular 2 3 (zoom_order1 [[0; 1 # 2; 1]; [1 # 4; 3 # 4; 0]] 2 3)
  /\ (forall i j, (i < 2)%nat -> (j < 3)%nat ->
        cell (zoom_order1 [[0; 1 # 2; 1]; [1 # 4; 3 # 4; 0]] 2 3) i j
          == cell [[0; 1 # 2; 1]; [1 # 4; 3 # 4; 0]] i j
        /\ Qabs (cell (zoom_order1 [[0; 1 # 2; 1]; [1 # 4; 3 # 4; 0]] 2 3) i j
                 - cell [[0; 1 # 2; 1]; [1 # 4; 3 # 4; 0]] i j) <= 1 # 1000000)
  /\ (forall resize_kernel flt (img : Pipeline.limage),
        Pipeline.pil_resize resize_kernel flt (length (hd [] img)) (length img) img = img).
Proof.
  assert (H : rectangular 2 3 [[0; 1 # 2; 1]; [1 # 4; 3 # 4; 0]])
    by (split; [reflexivity | repeat constructor]).
  split; [exact H | exact (resample_identity _ _ _ H)].
Defined.

(** Claim C1, as amended: the Unity scripts resample by order-1 (bilinear)
    interpolation, the same formula for up- and down-sampling, at source
    coordinates [(i * (H-1)/(T-1), j * (W-1)/(T-1))] (corners aligned); the
    backend resizes its 8-bit image with PIL's LANCZOS filter instead. *)
Theorem resample_order1_corners (g : qgrid) (t i j : nat) :
  (i < t)%nat -> (j < t)%nat -> (2 <= t)%nat ->
  cell (resample_unity g t) i j = bilinear g (src_coord (nrows g) t i) (src_coord (ncols g) t j)
  /\ src_coord (nrows g) t i
     == inject_Z (Z.of_nat i) * inject_Z (Z.of_nat (nrows g) - 1) / inject_Z (Z.of_nat t - 1)
  /\ src_coord (ncols g) t j
     == inject_Z (Z.of_nat j) * inject_Z (Z.of_nat (ncols g) - 1) / inject_Z (Z.of_nat t - 1)
  /\ backend_resize_filter = LANCZOS.
Proof.
  intros Hi Hj Ht. unfold resample_unity.
  assert (Hr : forall n k, src_coord n t k
            == inject_Z (Z.of_nat k) * inject_Z (Z.of_nat n - 1) / inject_Z (Z.of_nat t - 1)).
  { intros n k. unfold src_coord, zoom_ratio.
    replace (Nat.eqb t 1) with false by (symmetry; apply Nat.eqb_neq; lia).
    unfold Qdiv. apply Qmult_assoc. }
  split; [apply cell_zoom; assumption|].
  split; [apply Hr|]. split; [apply Hr | reflexivity].
Qed.

Lemma resample_order1_corners_witness :
  (1 < 4)%nat /\ (2 < 4)%nat /\ (2 <= 4)%nat /\
  cell (resample_unity [[0; 1]; [0; 1]] 4) 1 2
    = bilinear [[0; 1]; [0; 1]] (src_coord 2 4 1) (src_coord 2 4 2)
  /\ src_coord 2 4 1 == inject_Z 1 * inject_Z (2 - 1) / inject_Z (4 - 1)
  /\ src_coord 2 4 2 == inject_Z 2 * inject_Z (2 - 1) / inject_Z (4 - 1)
  /\ backend_resize_filter = LANCZOS.
Proof.
  split; [lia|]. split; [lia|]. split; [lia|].
  exact (resample_order1_corners [[0; 1]; [0; 1]] 4 1 2 ltac:(lia) ltac:(lia) ltac:(lia)).
Defined.

(** Claim C1 fails: resampling [[0, 1], [0, 1]] to 4 x 4, output column 1
    is taken at source column 1/3 (value 1/3), not at [1 * 2 / 4 = 1/2]. *)
Lemma resample_not_at_i_H_over_T :
  cell (resample_unity [[0; 1]; [0; 1]] 4) 0 1 == 1 # 3
  /\ cell (spec_resample [[0; 1]; [0; 1]] 4) 0 1 == 1 # 2
  /\ ~ (cell (resample_unity [[0; 1]; [0; 1]] 4) 0 1 == cell (spec_resample [[0; 1]; [0; 1]] 4) 0 1).
Proof.
  split; [vm_compute; reflexivity|]. split; [vm_compute; reflexivity|].
  vm_compute. discriminate.
Qed.

End ResampleFacts.

(** ** Normalizer *)

Module NormalizeFacts.
Import Normalize Props.

Lemma fins_app (l1 l2 : list fl) : fins (l1 ++ l2) = fins l1 ++ fins l2.
Proof. unfold fins. apply flat_map_app. Qed.


(** Without infinities, dropping the NaN cells leaves the finite ones. *)
Lemma filter_not_nan (xs : list fl) :
  (forall x, In x xs -> x <> PInf /\ x <> NInf) ->
  filter (fun x => negb (is_nan x)) xs = map Fin (fins xs).
Proof.
  induction xs as [|x xs IH]; intros H; [reflexivity|].
  assert (IH' : filter (fun x => negb (is_nan x)) xs = map Fin (fins xs))
    by (apply IH; intros y Hy; apply H; right; exact Hy).
  destruct x as [q| | |]; simpl; rewrite IH'; try reflexivity;
    exfalso; destruct (H _ (or_introl eq_refl)); auto.
Qed.


Lemma fold_min2_fin (qs : list Q) (q0 : Q) :
  exists m, fold_left min2 (map Fin qs) (Fin q0) = Fin m
    /\ In m (q0 :: qs) /\ forall q, In q (q0 :: qs) -> m <= q.
Proof.
  revert q0. induction qs as [|a qs IH]; intros q0.
  - exists q0. split; [reflexivity|]. split; [left; reflexivity|].
    intros q [<-|[]]. apply Qle_refl.
  - simpl. unfold min2 at 2. simpl ltb.
    destruct (Qle_bool q0 a) eqn:E; simpl.
    + apply Qle_bool_iff in E. destruct (IH q0) as [m [Hf [Hin Hle]]].
      exists m. split; [exact Hf|]. split.
      * destruct Hin as [<-|Hin]; [left; reflexivity | right; right; exact Hin].
      * intros q [<-|[<-|Hq]]; [apply Hle; left; reflexivity| |apply Hle; right; exact Hq].
        apply Qle_trans with q0; [apply Hle; left; reflexivity | exact E].
    + assert (E' : a <= q0).
      { apply Qlt_le_weak, Qnot_le_lt. intros Hle. apply Qle_bool_iff in Hle. congruence. }
      destruct (IH a) as [m [Hf [Hin Hle]]].
      exists m. split; [exact Hf|]. split; [right; exact Hin|].
      intros q [<-|Hq]; [|apply Hle; exact Hq].
      apply Qle_trans with a; [apply Hle; left; reflexivity | exact E'].
Qed.

Lemma fold_max2_fin (qs : list Q) (q0 : Q) :
  exists m, fold_left max2 (map Fin qs) (Fin q0) = Fin m
    /\ In m (q0 :: qs) /\ forall q, In q (q0 :: qs) -> q <= m.
Proof.
  revert q0. induction qs as [|a qs IH]; intros q0.
  - exists q0. split; [reflexivity|]. split; [left; reflexivity|].
    intros q [<-|[]]. apply Qle_refl.
  - simpl. unfold max2 at 2. simpl ltb.
    destruct (Qle_bool a q0) eqn:E; simpl.
    + apply Qle_bool_iff in E. destruct (IH q0) as [m [Hf [Hin Hle]]].
      exists m. split; [exact Hf|]. split.
      * destruct Hin as [<-|Hin]; [left; reflexivity | right; right; exact Hin].
      * intros q [<-|[<-|Hq]]; [apply Hle; left; reflexivity| |apply Hle; right; exact Hq].
        apply Qle_trans with q0; [exact E | apply Hle; left; reflexivity].
    + assert (E' : q0 <= a).
      { apply Qlt_le_weak, Qnot_le_lt. intros Hle. apply Qle_bool_iff in Hle. congruence. }
      destruct (IH a) as [m [Hf [Hin Hle]]].
      exists m. split; [exact Hf|]. split; [right; exact Hin|].
      intros q [<-|Hq]; [|apply Hle; exact Hq].
      apply Qle_trans with a; [exact E' | apply Hle; left; reflexivity].
Qed.

(** The extrema of the finite cells, when there is no infinity. *)
Lemma nan_extrema (xs : list fl) (q0 : Q) (qs : list Q) :
  (forall x, In x xs -> x <> PInf /\ x <> NInf) -> fins xs = q0 :: qs ->
  exists mn mx, nanmin xs = Ok (Fin mn) /\ nanmax xs = Ok (Fin mx)
    /\ In mn (fins xs) /\ In mx (fins xs)
    /\ (forall q, In q (fins xs) -> mn <= q /\ q <= mx).
Proof.
  intros Hinf Hf.
  destruct (fold_min2_fin qs q0) as [mn [Hmn [Hinmn Hlemn]]].
  destruct (fold_max2_fin qs q0) as [mx [Hmx [Hinmx Hlemx]]].
  assert (Hne : xs <> []) by (intros ->; discriminate).
  exists mn, mx. rewrite Hf. split; [|split; [|split; [|split]]]; auto.
  - unfold nanmin. destruct xs; [contradiction|].
    rewrite (filter_not_nan _ Hinf), Hf. simpl. rewrite Hmn. reflexivity.
  - unfold nanmax. destruct xs; [contradiction|].
    rewrite (filter_not_nan _ Hinf), Hf. simpl. rewrite Hmx. reflexivity.
Qed.


















End NormalizeFacts.

(** ** Gap Filler *)

Module GapFillFacts.
Import GapFill Props.

(** Every sample of [indexed g] carries a cell of [g]. *)
Lemma indexed_in (g : grid) (p : point) (x : fl) : In (p, x) (indexed g) -> In x (concat g).
Proof.
  unfold indexed. intros H. apply in_flat_map in H as [[r row] [Hrow H]].
  apply in_map_iff in H as [[c y] [Hxy Hy]]. injection Hxy as _ <-.
  apply in_concat. exists row. split.
  - apply in_combine_r in Hrow. exact Hrow.
  - apply in_combine_r in Hy. exact Hy.
Qed.






Lemma mask_cells (nodata : option fl) (g : grid) (x : fl) :
  In x (concat (match nodata with Some nd => mask_nodata nd g | None => g end)) ->
  x = NaN \/ In x (concat g).
Proof.
  destruct nodata as [nd|]; [|auto].
  unfold mask_nodata. rewrite <- concat_map. intros H.
  apply in_map_iff in H as [y [<- Hy]]. destruct (eqb y nd); auto.
Qed.

(** Claim C3: when every cell equals the no-data value, no known value is
    left and [griddata] is called with no points: it raises [ValueError]
    instead of returning a grid of zeros, so the [else 0] fill of line 266
    is never used. *)
Theorem gap_fill_no_known_raises (nd : fl) (g : grid) :
  concat g <> [] ->
  (forall x, In x (concat g) -> eqb x nd = true) ->
  gap_fill (Some nd) g = Err ValueError_no_points.
Proof.
  intros Hne Hall. unfold gap_fill. cbv zeta.
  assert (Hnan : forall x, In x (concat (mask_nodata nd g)) -> x = NaN).
  { unfold mask_nodata. rewrite <- concat_map. intros x Hx.
    apply in_map_iff in Hx as [y [<- Hy]]. rewrite (Hall y Hy). reflexivity. }
  assert (Hex : existsb is_nan (concat (mask_nodata nd g)) = true).
  { destruct (concat g) as [|y ys] eqn:Hc; [contradiction|].
    apply existsb_exists. exists (if eqb y nd then NaN else y). split.
    - unfold mask_nodata. rewrite <- concat_map, Hc. left. reflexivity.
    - rewrite (Hall y); [reflexivity|]. left. reflexivity. }
  assert (Hk : known (mask_nodata nd g) = []).
  { unfold known. destruct (filter _ _) as [|s ss] eqn:Hf; [reflexivity|].
    assert (Hs : In s (filter (fun s => negb (is_nan (snd s))) (indexed (mask_nodata nd g))))
      by (rewrite Hf; left; reflexivity).
    apply filter_In in Hs as [Hs Hn]. destruct s as [p x].
    rewrite (Hnan x (indexed_in _ _ _ Hs)) in Hn. discriminate. }
  rewrite Hex, Hk. reflexivity.
Qed.

Lemma gap_fill_no_known_raises_witness :
  gap_fill (Some (Fin (-9999))) [[Fin (-9999); Fin (-9999)]; [Fin (-9999); Fin (-9999)]]
  = Err ValueError_no_points.
Proof.
  apply (gap_fill_no_known_raises (Fin (-9999))
           [[Fin (-9999); Fin (-9999)]; [Fin (-9999); Fin (-9999)]]).
  - discriminate.
  - intros x Hx. simpl in Hx.
    repeat (destruct Hx as [<-|Hx]; [reflexivity|]). contradiction.
Defined.




End GapFillFacts.

(** ** Python string operations *)

Module PyStrFacts.
Import PyStr.
Open Scope string_scope.

Lemma string_app_assoc (a b c : string) : (a ++ b) ++ c = a ++ (b ++ c).
Proof. induction a as [|x a IH]; simpl; [reflexivity|]. rewrite IH. reflexivity. Qed.

Lemma string_app_nil_r (a : string) : a ++ "" = a.
Proof. induction a as [|x a IH]; simpl; [reflexivity|]. rewrite IH. reflexivity. Qed.

Lemma string_app_inv_l (p a b : string) : p ++ a = p ++ b -> a = b.
Proof. induction p as [|x p IH]; simpl; [auto|]. intros H. injection H. exact IH. Qed.

Lemma contains_app_r (p s t : string) : contains p t = true -> contains p (s ++ t) = true.
Proof.
  induction s as [|c s IH]; simpl; [auto|]. intros H. rewrite (IH H). apply orb_true_r.
Qed.

Lemma contains_cons_false (p : string) (c : ascii) (s : string) :
  contains p (String c s) = false -> starts_with p (String c s) = false /\ contains p s = false.
Proof. simpl. apply orb_false_iff. Qed.

Lemma no_match_app (old a b rest : string) :
  no_match_in old (a ++ b) rest = no_match_in old a (b ++ rest) && no_match_in old b rest.
Proof.
  induction a as [|c a IH]; simpl; [reflexivity|].
  rewrite IH, string_app_assoc, andb_assoc. reflexivity.
Qed.

(** The scan goes over a prefix holding no occurrence unchanged. *)
Lemma replace_scan_clean (fuel : nat) (old new x rest : string) :
  no_match_in old x rest = true -> (String.length x <= fuel)%nat ->
  replace_scan fuel old new (x ++ rest) = x ++ replace_scan (fuel - String.length x) old new rest.
Proof.
  revert fuel. induction x as [|c x IH]; intros fuel Hn Hl.
  - simpl. rewrite Nat.sub_0_r. reflexivity.
  - destruct fuel as [|f]; simpl in Hl; [lia|].
    simpl in Hn. apply andb_true_iff in Hn as [Hs Hn]. apply negb_true_iff in Hs.
    cbn [replace_scan String.append]. rewrite Hs. simpl. rewrite IH by (auto; lia). reflexivity.
Qed.

(** An occurrence of ".tif" cannot start inside [t] and end in a following
    ".": it lies in [t]. *)
Lemma tif_no_straddle (t r : string) :
  t <> "" -> starts_with ".tif" (t ++ String "." r) = true -> starts_with ".tif" t = true.
Proof.
  assert (Et : Ascii.eqb "t" "." = false) by reflexivity.
  assert (Ei : Ascii.eqb "i" "." = false) by reflexivity.
  assert (Ef : Ascii.eqb "f" "." = false) by reflexivity.
  intros Ht H. destruct t as [|a [|b [|c [|d t']]]]; [contradiction| | | |];
    cbn [starts_with String.append] in H |- *;
    rewrite ?Et, ?Ei, ?Ef, ?andb_false_l, ?andb_false_r in H; try discriminate; exact H.
Qed.

Lemma no_match_tif (x r : string) :
  contains ".tif" x = false -> no_match_in ".tif" x (String "." r) = true.
Proof.
  induction x as [|c x IH]; intros H; [reflexivity|].
  apply contains_cons_false in H as [Hs Hc].
  cbn [no_match_in]. rewrite (IH Hc), andb_true_r. apply negb_true_iff.
  destruct (starts_with ".tif" (String c (x ++ String "." r))) eqn:E; [|reflexivity].
  change (String c (x ++ String "." r)) with (String c x ++ String "." r) in E.
  apply tif_no_straddle in E; [congruence|discriminate].
Qed.

Lemma replace_tif_end (fuel : nat) (new : string) : (4 <= fuel)%nat ->
  replace_scan fuel ".tif" new ".tif" = new.
Proof.
  intros H. destruct fuel as [|[|[|[|[|f]]]]]; try lia; simpl; apply string_app_nil_r.
Qed.

Lemma replace_tif_tif_end (fuel : nat) (new : string) : (8 <= fuel)%nat ->
  replace_scan fuel ".tif" new ".tif.tif" = new ++ new.
Proof.
  intros H. do 8 (destruct fuel as [|fuel]; [lia|]). simpl.
  rewrite string_app_nil_r. reflexivity.
Qed.

Lemma length_app (a b : string) : String.length (a ++ b) = (String.length a + String.length b)%nat.
Proof. induction a as [|c a IH]; simpl; [reflexivity|]. rewrite IH. reflexivity. Qed.

End PyStrFacts.

(** ** app.py: paths, handlers and their file-system effects *)

Module BackendFacts.
Import PyStr PyStrFacts Api Backend.
Open Scope string_scope.

Lemma given_nonempty (id : string) : id <> "" -> given (Some id) = Some id.
Proof.
  intros H. unfold given. destruct (String.eqb id "") eqn:E; [|reflexivity].
  apply String.eqb_eq in E. contradiction.
Qed.

Lemma given_some_inv (s id : string) : given (Some s) = Some id -> id = s.
Proof. unfold given. destruct (String.eqb s ""); congruence. Qed.

Lemma present_false_iff (files : fs) (p : string) : present files p = false <-> ~ In p files.
Proof.
  unfold present. rewrite <- not_true_iff_false, existsb_exists. split.
  - intros H Hin. apply H. exists p. split; [exact Hin|apply String.eqb_refl].
  - intros H [q [Hq E]]. apply String.eqb_eq in E. subst. contradiction.
Qed.

Lemma present_true_iff (files : fs) (p : string) : present files p = true <-> In p files.
Proof.
  unfold present. rewrite existsb_exists. split.
  - intros [q [Hq E]]. apply String.eqb_eq in E. subst. exact Hq.
  - intros H. exists p. split; [exact H|apply String.eqb_refl].
Qed.

Lemma filter_not_in (files : fs) (x : string) :
  ~ In x files -> filter (fun p => negb (String.eqb p x)) files = files.
Proof.
  induction files as [|a t IH]; simpl; [reflexivity|]. intros H.
  destruct (String.eqb a x) eqn:E.
  - apply String.eqb_eq in E. subst. exfalso. apply H. left. reflexivity.
  - simpl. rewrite IH; [reflexivity|]. intros Hin. apply H. right. exact Hin.
Qed.

Lemma filter_app_single (files : fs) (x : string) :
  ~ In x files -> filter (fun p => negb (String.eqb p x)) (files ++ [x]) = files.
Proof.
  intros H. rewrite filter_app, filter_not_in by exact H. simpl.
  rewrite String.eqb_refl. apply app_nil_r.
Qed.

Lemma filter_keeps (files : fs) (x q : string) :
  In q files -> q <> x -> In q (filter (fun p => negb (String.eqb p x)) files).
Proof.
  intros Hin Hne. apply filter_In. split; [exact Hin|].
  apply negb_true_iff, String.eqb_neq. exact Hne.
Qed.

Lemma dem_prefix_inv (x a b : string) :
  join UPLOAD_FOLDER ("dem_" ++ x ++ a) = join UPLOAD_FOLDER ("dem_" ++ x ++ b) -> a = b.
Proof.
  unfold join, UPLOAD_FOLDER. intros H.
  apply (string_app_inv_l "temp/dem_") in H. apply string_app_inv_l in H. exact H.
Qed.

(** The heightmap of a DEM whose [file_id] holds no ".tif" is written where
    [cleanup] looks for it. *)
Lemma heightmap_path_plain (id : string) :
  contains ".tif" id = false ->
  heightmap_output_path (join UPLOAD_FOLDER ("dem_" ++ id ++ ".tif"))
  = join UPLOAD_FOLDER ("dem_" ++ id ++ "_heightmap.png").
Proof.
  intros H. unfold heightmap_output_path, py_replace, join, UPLOAD_FOLDER.
  assert (Hs : "temp" ++ "/" ++ "dem_" ++ id ++ ".tif" = ("temp/dem_" ++ id) ++ ".tif")
    by (rewrite string_app_assoc; reflexivity).
  rewrite Hs.
  assert (Hn : no_match_in ".tif" ("temp/dem_" ++ id) ".tif" = true).
  { rewrite no_match_app. rewrite (no_match_tif id "tif" H). reflexivity. }
  rewrite replace_scan_clean by (exact Hn || (rewrite !length_app; lia)).
  rewrite replace_tif_end by (rewrite !length_app; cbn [String.length]; lia).
  rewrite string_app_assoc. reflexivity.
Qed.

Lemma heightmap_path_tif_id (x : string) :
  contains ".tif" x = false ->
  heightmap_output_path (join UPLOAD_FOLDER ("dem_" ++ (x ++ ".tif") ++ ".tif"))
  = join UPLOAD_FOLDER ("dem_" ++ x ++ "_heightmap.png_heightmap.png").
Proof.
  intros H. unfold heightmap_output_path, py_replace, join, UPLOAD_FOLDER.
  assert (Hs : "temp" ++ "/" ++ "dem_" ++ (x ++ ".tif") ++ ".tif"
               = ("temp/dem_" ++ x) ++ ".tif.tif")
    by (rewrite !string_app_assoc; reflexivity).
  rewrite Hs.
  assert (Hn : no_match_in ".tif" ("temp/dem_" ++ x) ".tif.tif" = true).
  { rewrite no_match_app. rewrite (no_match_tif x "tif.tif" H). reflexivity. }
  rewrite replace_scan_clean by (exact Hn || (rewrite !length_app; lia)).
  rewrite replace_tif_tif_end by (rewrite !length_app; cbn [String.length]; lia).
  rewrite string_app_assoc. reflexivity.
Qed.

(** What a run of [/api/process-dem] does: either it fails before saving
    anything, or it has checked the DEM, opened it and saved the heightmap,
    and its reply is the [send_file] of that heightmap or, when
    [send_file] does not find it, status 500. *)
Lemma process_run_cases (kernel : Resample.pil_filter -> nat -> nat -> Pipeline.limage -> Pipeline.limage)
    (root_files : option fs) (files : fs) (rs : rasters) (req : dem_request)
    (r : reply (string * string)) (tr : list ev) :
  process_dem_run kernel root_files files rs req = (r, tr) ->
  ((forall a, r <> Success a) /\ forall p, ~ In (WriteFile p) tr)
  \/ (exists id, given (req_file_id req) = Some id
        /\ present files (join UPLOAD_FOLDER ("dem_" ++ id ++ ".tif")) = true
        /\ tr = [PathExists (join UPLOAD_FOLDER ("dem_" ++ id ++ ".tif"));
                 RasterOpen (join UPLOAD_FOLDER ("dem_" ++ id ++ ".tif"));
                 WriteFile (heightmap_output_path (join UPLOAD_FOLDER ("dem_" ++ id ++ ".tif")))]
        /\ (if send_file_ok root_files
                 (write files (heightmap_output_path (join UPLOAD_FOLDER ("dem_" ++ id ++ ".tif"))))
                 (heightmap_output_path (join UPLOAD_FOLDER ("dem_" ++ id ++ ".tif")))
            then r = Success (heightmap_output_path (join UPLOAD_FOLDER ("dem_" ++ id ++ ".tif")),
                              "heightmap_" ++ id ++ ".png")
            else r = Internal)).
Proof.
  unfold process_dem_run. intros H.
  assert (Hfail : forall tr', (Internal, tr') = (r, tr) -> (forall p, ~ In (WriteFile p) tr') ->
            ((forall a, r <> Success a) /\ forall p, ~ In (WriteFile p) tr)).
  { intros tr' E Hw. injection E as <- <-. split; [intros a; discriminate | exact Hw]. }
  destruct (given (req_file_id req)) as [id|].
  { destruct (negb (existsb _ supported_resolutions)).
    { left. injection H as <- <-. split; [intros a; discriminate | intros p []]. }
    cbv zeta in H. destruct (present files _) eqn:Ep; cbn [negb] in H.
    2: { left. injection H as <- <-. split; [intros a; discriminate|]. intros p [E|[]]; discriminate. }
    destruct (rs _) as [[nodata data]|].
    2: { left. apply (Hfail _ H). intros p [E|[E|[]]]; discriminate. }
    destruct (Pipeline.process_dem_to_heightmap _ _ _ _).
    2: { left. apply (Hfail _ H). intros p [E|[E|[]]]; discriminate. }
    right. exists id. split; [reflexivity|]. split; [exact Ep|].
    destruct (send_file_ok _ _ _); injection H as <- <-; split; reflexivity. }
  left. injection H as <- <-. split; [intros a; discriminate | intros p []].
Qed.

Lemma run_fs_no_write (files : fs) (tr : list ev) :
  (forall p, ~ In (WriteFile p) tr) -> run_fs files tr = files.
Proof.
  revert files. induction tr as [|e t IH]; intros files H; [reflexivity|].
  unfold run_fs. cbn [fold_left].
  destruct e as [k|p|p|p]; try (apply IH; intros q Hq; apply (H q); right; exact Hq).
  exfalso. apply (H p). left. reflexivity.
Qed.

Lemma download_success (cos_radians : Q -> Q) (key : string) (data : dl_body) (net : option string)
    (file_id : string) (ok : dl_ok) (tr : list ev) :
  download_dem cos_radians key data net file_id = (Success ok, tr) ->
  ok_file_id ok = file_id
  /\ exists k, tr = [OpenTopoGet k; WriteFile (join UPLOAD_FOLDER ("dem_" ++ file_id ++ ".tif"))].
Proof.
  unfold download_dem. intros H.
  destruct (is_none (dl_latitude data) || is_none (dl_longitude data)); [discriminate|].
  destruct (dl_latitude data) as [la|]; [|discriminate].
  destruct (dl_longitude data) as [lo|]; [|discriminate].
  destruct (num_of _) as [r|]; [|discriminate].
  destruct (num_of la) as [lat|]; [|discriminate].
  destruct (num_of lo) as [lon|]; [|discriminate].
  destruct (if String.eqb key "" then dl_api_key data else Some (JStr key)) as [k|]; [|discriminate].
  destruct (truthy k); [|discriminate].
  destruct net as [content|]; [|discriminate].
  injection H as <- <-. split; [reflexivity|]. exists k. reflexivity.
Qed.

Lemma cleanup_dem_only (files : fs) (id : string) :
  id <> "" ->
  ~ In (join UPLOAD_FOLDER ("dem_" ++ id ++ ".tif")) files ->
  ~ In (join UPLOAD_FOLDER ("dem_" ++ id ++ "_heightmap.png")) files ->
  cleanup (app files [join UPLOAD_FOLDER ("dem_" ++ id ++ ".tif")]) (Some id)
  = (Cleaned 1 ["dem_" ++ id ++ ".tif"], files).
Proof.
  intros Hne Hd Hh. unfold cleanup. rewrite given_nonempty by exact Hne.
  cbn [fold_left]. unfold cleanup_step at 2.
  assert (P1 : present (app files [join UPLOAD_FOLDER ("dem_" ++ id ++ ".tif")])
                 (join UPLOAD_FOLDER ("dem_" ++ id ++ ".tif")) = true)
    by (apply present_true_iff, in_or_app; right; left; reflexivity).
  rewrite P1, filter_app_single by exact Hd.
  unfold cleanup_step. rewrite (proj2 (present_false_iff _ _) Hh). reflexivity.
Qed.

Lemma cleanup_dem_and_heightmap (files : fs) (id : string) :
  id <> "" ->
  ~ In (join UPLOAD_FOLDER ("dem_" ++ id ++ ".tif")) files ->
  ~ In (join UPLOAD_FOLDER ("dem_" ++ id ++ "_heightmap.png")) files ->
  cleanup (app (app files [join UPLOAD_FOLDER ("dem_" ++ id ++ ".tif")])
               [join UPLOAD_FOLDER ("dem_" ++ id ++ "_heightmap.png")]) (Some id)
  = (Cleaned 2 ["dem_" ++ id ++ ".tif"; "dem_" ++ id ++ "_heightmap.png"], files).
Proof.
  intros Hne Hd Hh. unfold cleanup. rewrite given_nonempty by exact Hne.
  set (dem := join UPLOAD_FOLDER ("dem_" ++ id ++ ".tif")).
  set (hm := join UPLOAD_FOLDER ("dem_" ++ id ++ "_heightmap.png")).
  assert (Hdh : hm <> dem) by (intros E; apply dem_prefix_inv in E; discriminate).
  cbn [fold_left]. unfold cleanup_step at 2. fold dem.
  assert (P1 : present (app (app files [dem]) [hm]) dem = true)
    by (apply present_true_iff, in_or_app; left; apply in_or_app; right; left; reflexivity).
  rewrite P1.
  assert (F1 : filter (fun p => negb (String.eqb p dem)) (app (app files [dem]) [hm]) = app files [hm]).
  { rewrite filter_app, filter_app_single by exact Hd. cbn [filter].
    rewrite (proj2 (String.eqb_neq hm dem) Hdh). reflexivity. }
  rewrite F1. unfold cleanup_step. fold hm.
  assert (P2 : present (app files [hm]) hm = true)
    by (apply present_true_iff, in_or_app; right; left; reflexivity).
  rewrite P2, filter_app_single by exact Hh. reflexivity.
Qed.

Theorem download_process_cleanup_restores
    (cos_radians : Q -> Q) (kernel : Resample.pil_filter -> nat -> nat -> Pipeline.limage -> Pipeline.limage)
    (root_files : option fs) (key : string) (data : dl_body) (net : option string) (file_id : string)
    (rs : rasters) (files : fs) (ok : dl_ok) (tr1 : list ev) (resolution : option Z)
    (r2 : reply (string * string)) (tr2 : list ev) :
  file_id <> "" -> contains ".tif" file_id = false ->
  ~ In (join UPLOAD_FOLDER ("dem_" ++ file_id ++ ".tif")) files ->
  ~ In (join UPLOAD_FOLDER ("dem_" ++ file_id ++ "_heightmap.png")) files ->
  download_dem cos_radians key data net file_id = (Success ok, tr1) ->
  process_dem_run kernel root_files (run_fs files tr1) rs
    {| req_file_id := Some (ok_file_id ok); req_resolution := resolution |} = (r2, tr2) ->
  ((~ In (WriteFile (join UPLOAD_FOLDER ("dem_" ++ file_id ++ "_heightmap.png"))) tr2
    /\ cleanup (run_fs (run_fs files tr1) tr2) (Some file_id)
       = (Cleaned 1 ["dem_" ++ file_id ++ ".tif"], files))
   \/ (In (WriteFile (join UPLOAD_FOLDER ("dem_" ++ file_id ++ "_heightmap.png"))) tr2
       /\ cleanup (run_fs (run_fs files tr1) tr2) (Some file_id)
          = (Cleaned 2 ["dem_" ++ file_id ++ ".tif"; "dem_" ++ file_id ++ "_heightmap.png"], files)))
  /\ (forall a, r2 = Success a ->
       a = (join UPLOAD_FOLDER ("dem_" ++ file_id ++ "_heightmap.png"), "heightmap_" ++ file_id ++ ".png")).
Proof.
  intros Hne Htif Hd Hh Hdl Hpr.
  destruct (download_success _ _ _ _ _ _ _ Hdl) as [Hid [k ->]]. rewrite Hid in Hpr.
  assert (F1 : run_fs files [OpenTopoGet k; WriteFile (join UPLOAD_FOLDER ("dem_" ++ file_id ++ ".tif"))]
               = app files [join UPLOAD_FOLDER ("dem_" ++ file_id ++ ".tif")]).
  { unfold run_fs, fold_left, write. rewrite (proj2 (present_false_iff _ _) Hd). reflexivity. }
  rewrite F1 in Hpr |- *.
  destruct (process_run_cases _ _ _ _ _ _ _ Hpr) as [[Hr Hw]|[id [Hg [_ [-> Hs]]]]].
  - split; [left; split; [apply Hw|] | intros a E; exfalso; exact (Hr a E)].
    rewrite run_fs_no_write by exact Hw. apply cleanup_dem_only; assumption.
  - cbn [req_file_id] in Hg. apply given_some_inv in Hg. subst id.
    rewrite heightmap_path_plain in Hs |- * by exact Htif.
    split.
    + right. split; [right; right; left; reflexivity|].
      assert (Hw : forall l p, run_fs l [PathExists (join UPLOAD_FOLDER ("dem_" ++ file_id ++ ".tif"));
                                         RasterOpen (join UPLOAD_FOLDER ("dem_" ++ file_id ++ ".tif"));
                                         WriteFile p] = write l p) by reflexivity.
      rewrite Hw. unfold write.
      assert (Hdh : join UPLOAD_FOLDER ("dem_" ++ file_id ++ "_heightmap.png")
                    <> join UPLOAD_FOLDER ("dem_" ++ file_id ++ ".tif"))
        by (intros E; apply dem_prefix_inv in E; discriminate).
      assert (P2 : present (app files [join UPLOAD_FOLDER ("dem_" ++ file_id ++ ".tif")])
                     (join UPLOAD_FOLDER ("dem_" ++ file_id ++ "_heightmap.png")) = false).
      { apply present_false_iff. intros Hin. apply in_app_or in Hin as [Hin|[Hin|[]]]; [contradiction|].
        apply Hdh. symmetry. exact Hin. }
      rewrite P2. apply cleanup_dem_and_heightmap; assumption.
    + intros a E. destruct (send_file_ok _ _ _); rewrite Hs in E; [injection E as <-; reflexivity | discriminate].
Qed.

Lemma step_keeps (st : list string * fs) (pat q : string) :
  In q (snd st) -> q <> join UPLOAD_FOLDER pat -> In q (snd (cleanup_step st pat)).
Proof.
  destruct st as [d files]; simpl. intros H Hne.
  destruct (present files (join UPLOAD_FOLDER pat)); simpl; [apply filter_keeps|]; assumption.
Qed.

Lemma cleanup_keeps (files : fs) (id q : string) :
  In q files -> q <> join UPLOAD_FOLDER ("dem_" ++ id ++ ".tif")
  -> q <> join UPLOAD_FOLDER ("dem_" ++ id ++ "_heightmap.png")
  -> In q (snd (cleanup files (Some id))).
Proof.
  intros Hin H1 H2. unfold cleanup. destruct (given (Some id)) as [id'|] eqn:E; [|exact Hin].
  apply given_some_inv in E. subst id'. cbn [fold_left].
  pose proof (step_keeps _ _ q (step_keeps ([], files) _ q Hin H1) H2) as H.
  destruct (cleanup_step (cleanup_step ([], files) _) _) as [d f']. exact H.
Qed.

Lemma write_in (files : fs) (p : string) : In p (write files p).
Proof.
  unfold write. destruct (present files p) eqn:E.
  - apply present_true_iff. exact E.
  - apply in_or_app. right. left. reflexivity.
Qed.

Theorem process_tif_id_heightmap_survives_cleanup
    (kernel : Resample.pil_filter -> nat -> nat -> Pipeline.limage -> Pipeline.limage)
    (root_files : option fs) (files : fs) (rs : rasters) (req : dem_request) (x : string)
    (r : string * string) (tr : list ev) :
  contains ".tif" x = false ->
  req_file_id req = Some (x ++ ".tif") ->
  process_dem_run kernel root_files files rs req = (Success r, tr) ->
  fst r = join UPLOAD_FOLDER ("dem_" ++ x ++ "_heightmap.png_heightmap.png")
  /\ In (fst r) (snd (cleanup (run_fs files tr) (Some (x ++ ".tif")))).
Proof.
  intros Hx Hreq Hpr.
  destruct (process_run_cases _ _ _ _ _ _ _ Hpr) as [[Hr _]|[id [Hid [_ [-> Hs]]]]];
    [exfalso; exact (Hr r eq_refl)|].
  rewrite Hreq in Hid. apply given_some_inv in Hid. subst id.
  rewrite heightmap_path_tif_id in Hs by exact Hx.
  destruct (send_file_ok _ _ _); [|discriminate Hs].
  assert (Er : r = (join UPLOAD_FOLDER ("dem_" ++ x ++ "_heightmap.png_heightmap.png"),
                    "heightmap_" ++ (x ++ ".tif") ++ ".png")) by congruence.
  subst r. rewrite heightmap_path_tif_id by exact Hx. cbn [fst]. split; [reflexivity|].
  apply cleanup_keeps; [apply write_in| |];
    rewrite (string_app_assoc x ".tif"); intros E; apply dem_prefix_inv in E; discriminate.
Qed.

Lemma process_tif_id_heightmap_survives_cleanup_witness :
  fst (join UPLOAD_FOLDER "dem_a_heightmap.png_heightmap.png", "heightmap_a.tif.png")
    = join UPLOAD_FOLDER ("dem_" ++ "a" ++ "_heightmap.png_heightmap.png")
  /\ In (fst (join UPLOAD_FOLDER "dem_a_heightmap.png_heightmap.png", "heightmap_a.tif.png"))
        (snd (cleanup (run_fs [join UPLOAD_FOLDER "dem_a.tif.tif"]
                         [PathExists (join UPLOAD_FOLDER "dem_a.tif.tif");
                          RasterOpen (join UPLOAD_FOLDER "dem_a.tif.tif");
                          WriteFile (join UPLOAD_FOLDER "dem_a_heightmap.png_heightmap.png")])
                      (Some ("a" ++ ".tif")))).
Proof.
  apply (process_tif_id_heightmap_survives_cleanup (fun _ _ _ img => img) None
           [join UPLOAD_FOLDER "dem_a.tif.tif"]
           (fun _ => Some (Some (Fin (-9999)), [[Fin 100; Fin 250]; [Fin 175; Fin 130]]))
           {| req_file_id := Some "a.tif"; req_resolution := Some 129%Z |} "a");
    [reflexivity | reflexivity | vm_compute; reflexivity].
Defined.

Theorem download_400_iff (cos_radians : Q -> Q) (key : string) (data : dl_body)
    (net : option string) (file_id : string) :
  (fst (download_dem cos_radians key data net file_id) = Error 400 "Latitude and longitude are required"
   <-> (is_none (dl_latitude data) || is_none (dl_longitude data)) = true)
  /\ ((is_none (dl_latitude data) || is_none (dl_longitude data)) = true
      -> snd (download_dem cos_radians key data net file_id) = []).
Proof.
  unfold download_dem. cbv zeta.
  destruct (is_none (dl_latitude data) || is_none (dl_longitude data)) eqn:E.
  - split; [split; reflexivity | reflexivity].
  - split; [|discriminate]. split; [|discriminate].
    repeat match goal with |- context [match ?x with _ => _ end] => destruct x end;
      cbn [fst]; discriminate.
Qed.

Theorem download_request_key (cos_radians : Q -> Q) (key : string) (data : dl_body)
    (net : option string) (file_id : string) (k : json) :
  In (OpenTopoGet k) (snd (download_dem cos_radians key data net file_id)) ->
  truthy k = true /\ (key <> "" -> k = JStr key) /\ (key = "" -> dl_api_key data = Some k).
Proof.
  unfold download_dem. cbv zeta.
  destruct (is_none (dl_latitude data) || is_none (dl_longitude data)); [intros []|].
  destruct (dl_latitude data) as [la|]; [|intros []].
  destruct (dl_longitude data) as [lo|]; [|intros []].
  destruct (num_of _); [|intros []].
  destruct (num_of la); [|intros []].
  destruct (num_of lo); [|intros []].
  destruct (String.eqb key "") eqn:Ek.
  - apply String.eqb_eq in Ek. subst key.
    destruct (dl_api_key data) as [k'|]; [|intros []].
    destruct (truthy k') eqn:Et; [|intros []].
    intros H. assert (k' = k).
    { destruct net; cbn [snd In] in H; intuition congruence. }
    subst k'. split; [exact Et|]. split; [intros C; contradiction|]. reflexivity.
  - apply String.eqb_neq in Ek.
    destruct (truthy (JStr key)) eqn:Et; [|intros []].
    intros H. assert (JStr key = k).
    { destruct net; cbn [snd In] in H; intuition congruence. }
    subst k. split; [exact Et|]. split; [reflexivity|]. intros C; contradiction.
Qed.

Lemma download_request_key_witness :
  truthy (JStr "k") = true /\ ("" <> "" -> JStr "k" = JStr "") /\ ("" = "" -> dl_api_key
    {| dl_latitude := Some (JNum 1); dl_longitude := Some (JNum 2); dl_radius_km := None;
       dl_dem_type := None; dl_api_key := Some (JStr "k") |} = Some (JStr "k")).
Proof.
  apply (download_request_key (fun _ => 1) ""
    {| dl_latitude := Some (JNum 1); dl_longitude := Some (JNum 2); dl_radius_km := None;
       dl_dem_type := None; dl_api_key := Some (JStr "k") |} (Some "abc") "3f2a" (JStr "k")).
  left. reflexivity.
Defined.

Lemma after_last_dot (b ext : string) :
  contains "." ext = false -> after_last "."%char (b ++ String "." ext) = ext.
Proof.
  intros H. induction b as [|c b IH].
  - cbn [String.append after_last]. rewrite H. reflexivity.
  - cbn [String.append after_last].
    assert (Hc : contains "." (b ++ String "." ext) = true)
      by (apply contains_app_r; reflexivity).
    rewrite Hc. exact IH.
Qed.

Theorem allowed_file_last_extension (b ext : string) :
  contains "." ext = false ->
  allowed_file (b ++ "." ++ ext) = existsb (String.eqb (lower ext)) ALLOWED_EXTENSIONS.
Proof.
  intros H. unfold allowed_file.
  change ("." ++ ext) with (String "." ext).
  rewrite after_last_dot by exact H.
  assert (Hc : contains "." (b ++ String "." ext) = true) by (apply contains_app_r; reflexivity).
  rewrite Hc. reflexivity.
Qed.

Lemma allowed_file_last_extension_witness :
  allowed_file ("scan.v2" ++ "." ++ "TIF") = existsb (String.eqb (lower "TIF")) ALLOWED_EXTENSIONS
  /\ existsb (String.eqb (lower "TIF")) ALLOWED_EXTENSIONS = true.
Proof.
  split; [apply allowed_file_last_extension; reflexivity | reflexivity].
Defined.

(** The run where [send_file] does not find the saved heightmap (the server
    does not run from the directory of app.py): status 500, and the
    cleanup still removes both files. *)
Lemma download_process_cleanup_restores_witness :
  ((~ In (WriteFile (join UPLOAD_FOLDER ("dem_" ++ "3f2a" ++ "_heightmap.png")))
       [PathExists (join UPLOAD_FOLDER "dem_3f2a.tif"); RasterOpen (join UPLOAD_FOLDER "dem_3f2a.tif"); WriteFile (join UPLOAD_FOLDER "dem_3f2a_heightmap.png")]
    /\ cleanup (run_fs (run_fs [] [OpenTopoGet (JStr "k"); WriteFile (join UPLOAD_FOLDER "dem_3f2a.tif")])
                  [PathExists (join UPLOAD_FOLDER "dem_3f2a.tif"); RasterOpen (join UPLOAD_FOLDER "dem_3f2a.tif"); WriteFile (join UPLOAD_FOLDER "dem_3f2a_heightmap.png")])
          (Some "3f2a") = (Cleaned 1 ["dem_" ++ "3f2a" ++ ".tif"], []))
   \/ (In (WriteFile (join UPLOAD_FOLDER ("dem_" ++ "3f2a" ++ "_heightmap.png")))
         [PathExists (join UPLOAD_FOLDER "dem_3f2a.tif"); RasterOpen (join UPLOAD_FOLDER "dem_3f2a.tif"); WriteFile (join UPLOAD_FOLDER "dem_3f2a_heightmap.png")]
       /\ cleanup (run_fs (run_fs [] [OpenTopoGet (JStr "k"); WriteFile (join UPLOAD_FOLDER "dem_3f2a.tif")])
                     [PathExists (join UPLOAD_FOLDER "dem_3f2a.tif"); RasterOpen (join UPLOAD_FOLDER "dem_3f2a.tif"); WriteFile (join UPLOAD_FOLDER "dem_3f2a_heightmap.png")])
             (Some "3f2a") = (Cleaned 2 ["dem_" ++ "3f2a" ++ ".tif"; "dem_" ++ "3f2a" ++ "_heightmap.png"], [])))
  /\ (forall a, (Internal : reply (string * string)) = Success a ->
       a = (join UPLOAD_FOLDER ("dem_" ++ "3f2a" ++ "_heightmap.png"), "heightmap_" ++ "3f2a" ++ ".png")).
Proof.
  apply (download_process_cleanup_restores (fun _ => 1) (fun _ _ _ img => img) (Some []) ""
    {| dl_latitude := Some (JNum 1); dl_longitude := Some (JNum 2); dl_radius_km := None;
       dl_dem_type := None; dl_api_key := Some (JStr "k") |} (Some "abc") "3f2a"
    (fun _ => Some (Some (Fin (-9999)), [[Fin 100; Fin 250]; [Fin 175; Fin 130]])) []
    {| ok_file_id := "3f2a"; ok_size_bytes := 3;
       ok_south := fsub (Fin 1) (fdiv (Fin 10) (Fin 111));
       ok_north := fadd (Fin 1) (fdiv (Fin 10) (Fin 111));
       ok_west := fsub (Fin 2) (fdiv (Fin 10) (fmul (Fin 111) (Fin 1)));
       ok_east := fadd (Fin 2) (fdiv (Fin 10) (fmul (Fin 111) (Fin 1))) |}
    [OpenTopoGet (JStr "k"); WriteFile (join UPLOAD_FOLDER "dem_3f2a.tif")] (Some 513%Z));
    [discriminate | reflexivity | intros [] | intros [] | reflexivity | vm_compute; reflexivity].
Defined.

Lemma step_eq (d : list string) (files : fs) (pat : string) :
  cleanup_step (d, files) pat
  = ((d ++ (if present files (join UPLOAD_FOLDER pat) then [pat] else []))%list,
     filter (fun p => negb (String.eqb p (join UPLOAD_FOLDER pat))) files).
Proof.
  unfold cleanup_step. destruct (present files (join UPLOAD_FOLDER pat)) eqn:E; [reflexivity|].
  rewrite app_nil_r, filter_not_in; [reflexivity|]. apply present_false_iff, E.
Qed.

Lemma present_filter_other (files : fs) (x q : string) :
  q <> x -> present (filter (fun p => negb (String.eqb p x)) files) q = present files q.
Proof.
  intros Hne. destruct (present files q) eqn:E.
  - apply present_true_iff, filter_keeps; [apply present_true_iff, E | exact Hne].
  - apply ApiFacts.present_filter_keep. exact E.
Qed.

Lemma filter_filter_and {A} (f g : A -> bool) (l : list A) :
  filter f (filter g l) = filter (fun x => g x && f x) l.
Proof.
  induction l as [|a t IH]; [reflexivity|]. cbn [filter].
  destruct (g a); cbn [filter andb]; [destruct (f a)|]; rewrite ?IH; reflexivity.
Qed.

Theorem cleanup_removes_exactly (files : fs) (id : string) :
  id <> "" ->
  cleanup files (Some id)
  = (Cleaned (List.length (filter (fun pat => present files (join UPLOAD_FOLDER pat))
                              ["dem_" ++ id ++ ".tif"; "dem_" ++ id ++ "_heightmap.png"]))
             (filter (fun pat => present files (join UPLOAD_FOLDER pat))
                     ["dem_" ++ id ++ ".tif"; "dem_" ++ id ++ "_heightmap.png"]),
     filter (fun p => negb (String.eqb p (join UPLOAD_FOLDER ("dem_" ++ id ++ ".tif")))
                      && negb (String.eqb p (join UPLOAD_FOLDER ("dem_" ++ id ++ "_heightmap.png"))))
            files).
Proof.
  intros Hne. unfold cleanup. rewrite given_nonempty by exact Hne. cbn [fold_left].
  rewrite !step_eq, filter_filter_and.
  rewrite present_filter_other by (intros E; apply dem_prefix_inv in E; discriminate).
  cbn [filter]. destruct (present files (join UPLOAD_FOLDER ("dem_" ++ id ++ ".tif")));
    destruct (present files (join UPLOAD_FOLDER ("dem_" ++ id ++ "_heightmap.png"))); reflexivity.
Qed.

Lemma cleanup_removes_exactly_witness :
  cleanup ["temp/dem_a.tif"; "temp/other.png"] (Some "a")
  = (Cleaned (List.length (filter (fun pat => present ["temp/dem_a.tif"; "temp/other.png"] (join UPLOAD_FOLDER pat))
                              ["dem_" ++ "a" ++ ".tif"; "dem_" ++ "a" ++ "_heightmap.png"]))
             (filter (fun pat => present ["temp/dem_a.tif"; "temp/other.png"] (join UPLOAD_FOLDER pat))
                     ["dem_" ++ "a" ++ ".tif"; "dem_" ++ "a" ++ "_heightmap.png"]),
     filter (fun p => negb (String.eqb p (join UPLOAD_FOLDER ("dem_" ++ "a" ++ ".tif")))
                      && negb (String.eqb p (join UPLOAD_FOLDER ("dem_" ++ "a" ++ "_heightmap.png"))))
            ["temp/dem_a.tif"; "temp/other.png"]).
Proof. apply cleanup_removes_exactly. discriminate. Defined.

Theorem process_dem_run_effects
    (kernel : Resample.pil_filter -> nat -> nat -> Pipeline.limage -> Pipeline.limage)
    (root_files : option fs) (files : fs) (rs : rasters) (req : dem_request)
    (r : reply (string * string)) (tr : list ev) :
  process_dem_run kernel root_files files rs req = (r, tr) ->
  ((forall a, r <> Success a) /\ forall p, ~ In (WriteFile p) tr)
  \/ (exists id, given (req_file_id req) = Some id
        /\ tr = [PathExists (join UPLOAD_FOLDER ("dem_" ++ id ++ ".tif")); RasterOpen (join UPLOAD_FOLDER ("dem_" ++ id ++ ".tif"));
                 WriteFile (heightmap_output_path (join UPLOAD_FOLDER ("dem_" ++ id ++ ".tif")))]
        /\ (send_file_ok root_files (write files (heightmap_output_path (join UPLOAD_FOLDER ("dem_" ++ id ++ ".tif")))) (heightmap_output_path (join UPLOAD_FOLDER ("dem_" ++ id ++ ".tif"))) = true ->
            r = Success (heightmap_output_path (join UPLOAD_FOLDER ("dem_" ++ id ++ ".tif")), "heightmap_" ++ id ++ ".png"))
        /\ (send_file_ok root_files (write files (heightmap_output_path (join UPLOAD_FOLDER ("dem_" ++ id ++ ".tif")))) (heightmap_output_path (join UPLOAD_FOLDER ("dem_" ++ id ++ ".tif"))) = false ->
            r = Internal)
        /\ (root_files = None -> r = Success (heightmap_output_path (join UPLOAD_FOLDER ("dem_" ++ id ++ ".tif")), "heightmap_" ++ id ++ ".png"))).
Proof.
  intros H. destruct (process_run_cases _ _ _ _ _ _ _ H) as [Hl|[id [Hid [_ [Htr Hs]]]]]; [left; exact Hl|].
  right. exists id. split; [exact Hid|]. split; [exact Htr|].
  split; [|split].
  - intros E. rewrite E in Hs. exact Hs.
  - intros E. rewrite E in Hs. exact Hs.
  - intros ->. unfold send_file_ok in Hs.
    rewrite (proj2 (present_true_iff _ _) (write_in _ _)) in Hs. exact Hs.
Qed.

(** [send_file] does not find the heightmap it has just saved: status 500,
    and the heightmap stays written. *)
Lemma process_dem_run_effects_witness :
  ((forall a, (Internal : reply (string * string)) <> Success a)
   /\ forall p, ~ In (WriteFile p) [PathExists "temp/dem_a.tif"; RasterOpen "temp/dem_a.tif";
                                    WriteFile "temp/dem_a_heightmap.png"])
  \/ (exists id, given (Some "a") = Some id
        /\ [PathExists "temp/dem_a.tif"; RasterOpen "temp/dem_a.tif"; WriteFile "temp/dem_a_heightmap.png"]
           = [PathExists (join UPLOAD_FOLDER ("dem_" ++ id ++ ".tif")); RasterOpen (join UPLOAD_FOLDER ("dem_" ++ id ++ ".tif"));
              WriteFile (heightmap_output_path (join UPLOAD_FOLDER ("dem_" ++ id ++ ".tif")))]
        /\ (send_file_ok (Some []) (write ["temp/dem_a.tif"] (heightmap_output_path (join UPLOAD_FOLDER ("dem_" ++ id ++ ".tif")))) (heightmap_output_path (join UPLOAD_FOLDER ("dem_" ++ id ++ ".tif"))) = true ->
            (Internal : reply (string * string)) = Success (heightmap_output_path (join UPLOAD_FOLDER ("dem_" ++ id ++ ".tif")), "heightmap_" ++ id ++ ".png"))
        /\ (send_file_ok (Some []) (write ["temp/dem_a.tif"] (heightmap_output_path (join UPLOAD_FOLDER ("dem_" ++ id ++ ".tif")))) (heightmap_output_path (join UPLOAD_FOLDER ("dem_" ++ id ++ ".tif"))) = false ->
            (Internal : reply (string * string)) = Internal)
        /\ ((Some [] : option fs) = None ->
            (Internal : reply (string * string)) = Success (heightmap_output_path (join UPLOAD_FOLDER ("dem_" ++ id ++ ".tif")), "heightmap_" ++ id ++ ".png"))).
Proof.
  apply (process_dem_run_effects (fun _ _ _ img => img) (Some []) ["temp/dem_a.tif"]
           (fun _ => Some (Some (Fin (-9999)), [[Fin 100; Fin 250]; [Fin 175; Fin 130]]))
           {| req_file_id := Some "a"; req_resolution := None |}).
  vm_compute. reflexivity.
Defined.

Theorem download_writes_only_on_success (cos_radians : Q -> Q) (key : string) (data : dl_body)
    (net : option string) (file_id : string) (r : reply dl_ok) (tr : list ev) (p : string) :
  download_dem cos_radians key data net file_id = (r, tr) ->
  (In (WriteFile p) tr
   <-> (exists ok, r = Success ok) /\ p = join UPLOAD_FOLDER ("dem_" ++ file_id ++ ".tif")).
Proof.
  intros H. destruct r as [code msg| |ok].
  - split; [|intros [[ok E] _]; discriminate].
    revert H. unfold download_dem. cbv zeta.
    repeat match goal with |- context [match ?x with _ => _ end] => destruct x end;
      intros H; pose proof (f_equal fst H) as H1; cbn [fst] in H1; try discriminate H1;
      apply (f_equal snd) in H; cbn [snd] in H; subst tr; cbn [In]; intuition discriminate.
  - split; [|intros [[ok E] _]; discriminate].
    revert H. unfold download_dem. cbv zeta.
    repeat match goal with |- context [match ?x with _ => _ end] => destruct x end;
      intros H; pose proof (f_equal fst H) as H1; cbn [fst] in H1; try discriminate H1;
      apply (f_equal snd) in H; cbn [snd] in H; subst tr; cbn [In]; intuition discriminate.
  - destruct (download_success _ _ _ _ _ _ _ H) as [_ [k ->]]. split.
    + intros [E|[E|[]]]; [discriminate|]. injection E as <-. split; [exists ok; reflexivity | reflexivity].
    + intros [_ ->]. right. left. reflexivity.
Qed.

Lemma download_writes_only_on_success_witness :
  In (WriteFile "temp/dem_3f2a.tif") []
  <-> (exists ok, (Internal : reply dl_ok) = Success ok) /\ "temp/dem_3f2a.tif" = join UPLOAD_FOLDER ("dem_" ++ "3f2a" ++ ".tif").
Proof.
  apply (download_writes_only_on_success (fun _ => 1) ""
    {| dl_latitude := Some (JNum 1); dl_longitude := Some (JStr "east"); dl_radius_km := None;
       dl_dem_type := None; dl_api_key := Some (JStr "k") |} (Some "abc") "3f2a").
  reflexivity.
Defined.

End BackendFacts.

(** ** Backend: [process_dem_info] *)

Module DemInfoFacts.
Import PyStr Api Backend BackendFacts Props NormalizeFacts GapFillFacts.
Open Scope string_scope.

Lemma mask_shape (nodata : option fl) (data : grid) :
  List.length (match nodata with Some nd => mask_nodata nd data | None => data end) = List.length data
  /\ List.length (hd [] (match nodata with Some nd => mask_nodata nd data | None => data end))
     = List.length (hd [] data).
Proof.
  destruct nodata as [nd|]; [|auto]. unfold mask_nodata. rewrite List.length_map.
  split; [reflexivity|]. destruct data as [|row data]; [reflexivity|]. cbn [map hd].
  apply List.length_map.
Qed.

Theorem dem_info_extrema (files : fs) (rs : rasters) (id : string) (nodata : option fl) (data : grid) :
  id <> "" -> In (join UPLOAD_FOLDER ("dem_" ++ id ++ ".tif")) files ->
  rs (join UPLOAD_FOLDER ("dem_" ++ id ++ ".tif")) = Some (nodata, data) ->
  (forall x, In x (List.concat data) -> x <> PInf /\ x <> NInf) ->
  fins (List.concat (match nodata with Some nd => mask_nodata nd data | None => data end)) <> [] ->
  exists mn mx,
    process_dem_info files rs (Some id)
      = Success {| min_elevation := Fin mn; max_elevation := Fin mx;
                   size := [List.length data; List.length (hd [] data)] |}
    /\ In mn (fins (List.concat (match nodata with Some nd => mask_nodata nd data | None => data end)))
    /\ In mx (fins (List.concat (match nodata with Some nd => mask_nodata nd data | None => data end)))
    /\ forall q, In q (fins (List.concat (match nodata with Some nd => mask_nodata nd data | None => data end)))
                 -> mn <= q <= mx.
Proof.
  intros Hne Hin Hrs Hinf Hv.
  assert (Hinf' : forall x, In x (List.concat (match nodata with Some nd => mask_nodata nd data | None => data end))
                            -> x <> PInf /\ x <> NInf).
  { intros x Hx. destruct (mask_cells _ _ _ Hx) as [->|Hx']; [split; discriminate|]. apply Hinf, Hx'. }
  destruct (fins (List.concat (match nodata with Some nd => mask_nodata nd data | None => data end)))
    as [|q0 qs] eqn:Hf; [contradiction|].
  destruct (nan_extrema _ q0 qs Hinf' Hf) as [mn [mx [Hmn [Hmx [Hinmn [Hinmx Hbnd]]]]]].
  rewrite Hf in Hinmn, Hinmx, Hbnd.
  exists mn, mx. split; [|auto].
  unfold process_dem_info. rewrite given_nonempty by exact Hne.
  rewrite (proj2 (present_true_iff _ _) Hin). cbn [negb]. rewrite Hrs. cbv beta iota zeta.
  destruct (mask_shape nodata data) as [E1 E2].
  destruct nodata as [nd|]; cbv iota in Hmn, Hmx, E1, E2 |- *;
    rewrite Hmn, Hmx, ?E1, ?E2; reflexivity.
Qed.

Lemma dem_info_extrema_witness :
  exists mn mx,
    process_dem_info [join UPLOAD_FOLDER "dem_a.tif"]
      (fun _ => Some (Some (Fin (-9999)), [[Fin 100; Fin (-9999)]; [Fin 175; NaN]])) (Some "a")
      = Success {| min_elevation := Fin mn; max_elevation := Fin mx; size := [2%nat; 2%nat] |}
    /\ In mn (fins (List.concat (mask_nodata (Fin (-9999)) [[Fin 100; Fin (-9999)]; [Fin 175; NaN]])))
    /\ In mx (fins (List.concat (mask_nodata (Fin (-9999)) [[Fin 100; Fin (-9999)]; [Fin 175; NaN]])))
    /\ forall q, In q (fins (List.concat (mask_nodata (Fin (-9999)) [[Fin 100; Fin (-9999)]; [Fin 175; NaN]])))
                 -> mn <= q <= mx.
Proof.
  apply (dem_info_extrema [join UPLOAD_FOLDER "dem_a.tif"]
           (fun _ => Some (Some (Fin (-9999)), [[Fin 100; Fin (-9999)]; [Fin 175; NaN]])) "a"
           (Some (Fin (-9999))) [[Fin 100; Fin (-9999)]; [Fin 175; NaN]]).
  - discriminate.
  - left. reflexivity.
  - reflexivity.
  - intros x Hx. simpl in Hx. intuition (subst; discriminate).
  - vm_compute. discriminate.
Defined.

Theorem dem_info_all_nodata (files : fs) (rs : rasters) (id : string) (nd : fl) (data : grid) :
  id <> "" -> In (join UPLOAD_FOLDER ("dem_" ++ id ++ ".tif")) files ->
  rs (join UPLOAD_FOLDER ("dem_" ++ id ++ ".tif")) = Some (Some nd, data) ->
  List.concat data <> [] -> (forall x, In x (List.concat data) -> eqb x nd = true) ->
  process_dem_info files rs (Some id)
  = Success {| min_elevation := NaN; max_elevation := NaN; size := [List.length data; List.length (hd [] data)] |}.
Proof.
  intros Hne Hin Hrs Hc Hall.
  unfold process_dem_info. rewrite given_nonempty by exact Hne.
  rewrite (proj2 (present_true_iff _ _) Hin). cbn [negb]. rewrite Hrs. cbv beta iota zeta.
  unfold mask_nodata. rewrite <- concat_map.
  assert (Hm : map (fun x => if eqb x nd then NaN else x) (List.concat data) = map (fun _ => NaN) (List.concat data)).
  { apply map_ext_in. intros x Hx. rewrite (Hall _ Hx). reflexivity. }
  assert (Hfl : filter (fun x => negb (is_nan x)) (map (fun _ : fl => NaN) (List.concat data)) = []).
  { clear. induction (List.concat data) as [|a l IH]; [reflexivity|]. exact IH. }
  rewrite Hm. unfold nanmin, nanmax.
  destruct (map (fun _ : fl => NaN) (List.concat data)) as [|y ys] eqn:E.
  { apply map_eq_nil in E. contradiction. }
  rewrite Hfl. cbv beta iota. rewrite List.length_map.
  destruct data as [|row data']; [reflexivity|]. cbn [map hd]. rewrite List.length_map. reflexivity.
Qed.

Lemma dem_info_all_nodata_witness :
  process_dem_info [join UPLOAD_FOLDER "dem_a.tif"]
    (fun _ => Some (Some (Fin (-9999)), [[Fin (-9999); Fin (-9999)]])) (Some "a")
  = Success {| min_elevation := NaN; max_elevation := NaN; size := [1%nat; 2%nat] |}.
Proof.
  apply (dem_info_all_nodata _ _ "a" (Fin (-9999)) [[Fin (-9999); Fin (-9999)]]).
  - discriminate.
  - left. reflexivity.
  - reflexivity.
  - discriminate.
  - intros x Hx. simpl in Hx. intuition (subst; reflexivity).
Defined.

End DemInfoFacts.

(** ** Gap filler: range of the filled values *)

Module GapFillRangeFacts.
Import GapFill Props NormalizeFacts GapFillFacts.








Theorem gap_fill_complete_unchanged (nodata : option fl) (g : grid) :
  (forall x, In x (List.concat g)
             -> is_nan x = false /\ (forall nd, nodata = Some nd -> eqb x nd = false)) ->
  gap_fill nodata g = Ok g.
Proof.
  intros H. unfold gap_fill. cbv zeta.
  assert (Hm : match nodata with Some nd => mask_nodata nd g | None => g end = g).
  { destruct nodata as [nd|]; [|reflexivity]. unfold mask_nodata.
    rewrite <- (map_id g) at 2. apply map_ext_in. intros row Hrow.
    rewrite <- (map_id row) at 2. apply map_ext_in. intros x Hx.
    rewrite (proj2 (H x (proj2 (in_concat _ _) ltac:(eauto))) nd eq_refl). reflexivity. }
  rewrite Hm.
  destruct (existsb is_nan (List.concat g)) eqn:E; [|reflexivity].
  apply existsb_exists in E as [x [Hx Hn]]. rewrite (proj1 (H x Hx)) in Hn. discriminate.
Qed.

Lemma gap_fill_complete_unchanged_witness :
  gap_fill (Some (Fin (-9999))) [[Fin 1; Fin 2]; [Fin 3; PInf]] = Ok [[Fin 1; Fin 2]; [Fin 3; PInf]].
Proof.
  apply gap_fill_complete_unchanged. intros x Hx. simpl in Hx.
  repeat (destruct Hx as [<-|Hx]; [split; [reflexivity | intros nd E; injection E as <-; reflexivity]|]).
  contradiction.
Defined.

End GapFillRangeFacts.

(** ** Scripts/utils/image_utils.py *)

Module ImageUtilsFacts.
Import Props NormalizeFacts Resample ResampleFacts ImageUtils.

Theorem resize_heightmap_shape (hm : qgrid) (width height : nat) :
  ((nrows hm = 0 \/ ncols hm = 0)%nat -> resize_heightmap hm (width, height) = None)
  /\ ((nrows hm <> 0)%nat -> (ncols hm <> 0)%nat ->
      exists out, resize_heightmap hm (width, height) = Some out /\ rectangular height width out).
Proof.
  unfold resize_heightmap. split.
  - intros [E|E]; rewrite E; [reflexivity|]. rewrite orb_true_r. reflexivity.
  - intros H1 H2. apply Nat.eqb_neq in H1, H2. rewrite H1, H2. cbn [orb].
    eexists. split; [reflexivity | apply zoom_shape].
Qed.

Lemma resize_heightmap_shape_witness :
  exists out, resize_heightmap [[0; 1]; [1; 0]] (3%nat, 5%nat) = Some out /\ rectangular 5 3 out.
Proof.
  apply (proj2 (resize_heightmap_shape [[0; 1]; [1; 0]] 3 5)); discriminate.
Defined.

Theorem normalize_heightmap_nan (g : grid) (min_val max_val : fl) :
  In NaN (List.concat g) ->
  normalize_heightmap g min_val max_val = Ok (map (map (fun _ => NaN)) g).
Proof.
  intros H. unfold normalize_heightmap, amin, amax.
  assert (Hn : existsb is_nan (List.concat g) = true) by (apply existsb_exists; exists NaN; auto).
  destruct (List.concat g) as [|y ys]; [destruct H|]. rewrite Hn. cbn [bind eqb].
  f_equal. apply map_ext. intros row. apply map_ext. intros x.
  destruct x; reflexivity.
Qed.

Lemma normalize_heightmap_nan_witness :
  normalize_heightmap [[Fin 1; NaN]; [Fin 3; Fin 4]] (Fin 0) (Fin 1)
  = Ok (map (map (fun _ => NaN)) [[Fin 1; NaN]; [Fin 3; Fin 4]]).
Proof. apply normalize_heightmap_nan. right. left. reflexivity. Defined.

End ImageUtilsFacts.

(** ** Scripts/dem_processor.py: the command line *)

Module ScriptFacts.
Import PyStr Api Script.
Open Scope string_scope.

Theorem main_exit_zero_iff_saved (heightmap_of : grid -> Z -> option (list (list Z)))
    (files : fs) (rs : string -> option grid) (argv : list string) :
  fst (main heightmap_of files rs argv) = 0%Z
  <-> In (SaveImage (nth 2 argv "")) (snd (main heightmap_of files rs argv)).
Proof.
  unfold main, process_dem_to_heightmap. cbv zeta.
  destruct (Nat.ltb (List.length argv) 3); [cbn; split; [discriminate | intros []]|].
  destruct (if Nat.ltb 3 (List.length argv) then py_int (nth 3 argv "") else Some 513%Z);
    [|cbn; split; [discriminate | intros []]].
  destruct (negb (present files (nth 1 argv ""))); [cbn; split; [discriminate | intuition discriminate]|].
  destruct (rs (nth 1 argv "")); [|cbn; split; [discriminate | intuition discriminate]].
  destruct (heightmap_of _ _); [|cbn; split; [discriminate | intuition discriminate]].
  destruct (makedirs_ok files (py_dirname (nth 2 argv ""))); cbn.
  - split; [intros _; right; right; right; left; reflexivity | reflexivity].
  - split; [discriminate | intuition discriminate].
Qed.

Theorem main_bare_output_fails (heightmap_of : grid -> Z -> option (list (list Z)))
    (files : fs) (rs : string -> option grid) (argv : list string) :
  py_dirname (nth 2 argv "") = "" ->
  fst (main heightmap_of files rs argv) = 1%Z
  /\ ~ In (SaveImage (nth 2 argv "")) (snd (main heightmap_of files rs argv)).
Proof.
  intros Hd. unfold main, process_dem_to_heightmap. cbv zeta.
  destruct (Nat.ltb (List.length argv) 3); [cbn; split; [reflexivity | intros []]|].
  destruct (if Nat.ltb 3 (List.length argv) then py_int (nth 3 argv "") else Some 513%Z);
    [|cbn; split; [reflexivity | intros []]].
  destruct (negb (present files (nth 1 argv ""))); [cbn; split; [reflexivity | intuition discriminate]|].
  destruct (rs (nth 1 argv "")); [|cbn; split; [reflexivity | intuition discriminate]].
  destruct (heightmap_of _ _); [|cbn; split; [reflexivity | intuition discriminate]].
  unfold makedirs_ok. rewrite Hd. cbn. split; [reflexivity | intuition discriminate].
Qed.

Lemma main_bare_output_fails_witness :
  fst (main (fun _ _ => Some [[0%Z]]) ["in.tif"] (fun _ => Some [[Fin 1]])
          ["dem_processor.py"; "in.tif"; "out.png"]) = 1%Z
  /\ ~ In (SaveImage (nth 2 ["dem_processor.py"; "in.tif"; "out.png"] ""))
        (snd (main (fun _ _ => Some [[0%Z]]) ["in.tif"] (fun _ => Some [[Fin 1]])
                ["dem_processor.py"; "in.tif"; "out.png"])).
Proof.
  apply main_bare_output_fails. vm_compute. reflexivity.
Defined.

Theorem main_touches_only_its_arguments (heightmap_of : grid -> Z -> option (list (list Z)))
    (files : fs) (rs : string -> option grid) (argv : list string) (e : ev) :
  In e (snd (main heightmap_of files rs argv)) ->
  e = Exists (nth 1 argv "") \/ e = Open (nth 1 argv "")
  \/ e = MkDirs (py_dirname (nth 2 argv "")) \/ e = SaveImage (nth 2 argv "").
Proof.
  unfold main, process_dem_to_heightmap. cbv zeta.
  destruct (Nat.ltb (List.length argv) 3); [intros []|].
  destruct (if Nat.ltb 3 (List.length argv) then py_int (nth 3 argv "") else Some 513%Z); [|intros []].
  destruct (negb (present files (nth 1 argv ""))); [cbn; intuition congruence|].
  destruct (rs (nth 1 argv "")); [|cbn; intuition congruence].
  destruct (heightmap_of _ _); [|cbn; intuition congruence].
  destruct (makedirs_ok files (py_dirname (nth 2 argv ""))); cbn; intuition congruence.
Qed.

Lemma main_touches_only_its_arguments_witness :
  SaveImage "out/hm.png" = Exists (nth 1 ["dem_processor.py"; "in.tif"; "out/hm.png"] "")
  \/ SaveImage "out/hm.png" = Open (nth 1 ["dem_processor.py"; "in.tif"; "out/hm.png"] "")
  \/ SaveImage "out/hm.png" = MkDirs (py_dirname (nth 2 ["dem_processor.py"; "in.tif"; "out/hm.png"] ""))
  \/ SaveImage "out/hm.png" = SaveImage (nth 2 ["dem_processor.py"; "in.tif"; "out/hm.png"] "").
Proof.
  apply (main_touches_only_its_arguments (fun _ _ => Some [[0%Z]]) ["in.tif"] (fun _ => Some [[Fin 1]])).
  vm_compute. right. right. right. left. reflexivity.
Defined.

End ScriptFacts.

(** ** Resolution checks of the two entry points *)

Module EntryPointFacts.
Import Api.
Open Scope string_scope.






End EntryPointFacts.

(** ** backend/n8n_client.py: request headers *)

Module N8NFacts.
Import N8N.
Open Scope string_scope.

Lemma dict_get_set (d : dict) (k v k' : string) :
  dict_get (dict_set d k v) k' = if String.eqb k' k then Some v else dict_get d k'.
Proof.
  induction d as [|[a b] t IH]; cbn [dict_set dict_get]; [reflexivity|].
  destruct (String.eqb k a) eqn:Eka.
  - apply String.eqb_eq in Eka. subst a. cbn [dict_get].
    destruct (String.eqb k' k); reflexivity.
  - cbn [dict_get]. rewrite IH. destruct (String.eqb k' a) eqn:E1; [|reflexivity].
    apply String.eqb_eq in E1. subst a. rewrite (proj2 (String.eqb_neq k' k)); [reflexivity|].
    intros ->. rewrite String.eqb_refl in Eka. discriminate.
Qed.

Lemma dict_get_app (l1 l2 : dict) (k : string) :
  dict_get (app l1 l2) k = match dict_get l1 k with Some v => Some v | None => dict_get l2 k end.
Proof.
  induction l1 as [|[a b] t IH]; cbn [dict_get app]; [reflexivity|].
  destruct (String.eqb k a); [reflexivity | exact IH].
Qed.

Lemma dict_get_update (d e : dict) (k : string) :
  dict_get (dict_update d e) k
  = match dict_get (rev e) k with Some v => Some v | None => dict_get d k end.
Proof.
  unfold dict_update. revert d. induction e as [|[a b] t IH]; intros d; [reflexivity|].
  cbn [fold_left rev]. rewrite IH, dict_get_app, dict_get_set. cbn [dict_get].
  destruct (dict_get (rev t) k); [reflexivity|]. destruct (String.eqb k a); reflexivity.
Qed.

Lemma dict_get_not_in (e : dict) (k : string) : ~ In k (map fst e) -> dict_get e k = None.
Proof.
  induction e as [|[a b] t IH]; intros H; [reflexivity|]. cbn [dict_get].
  destruct (String.eqb k a) eqn:E.
  - apply String.eqb_eq in E. subst. exfalso. apply H. left. reflexivity.
  - apply IH. intros Hin. apply H. right. exact Hin.
Qed.

Lemma dict_get_rev (e : dict) (k : string) : NoDup (map fst e) -> dict_get (rev e) k = dict_get e k.
Proof.
  induction e as [|[a b] t IH]; intros H; [reflexivity|].
  cbn [map fst] in H. apply NoDup_cons_iff in H as [Ha Hn].
  cbn [rev]. rewrite dict_get_app. cbn [dict_get]. rewrite IH by exact Hn.
  destruct (String.eqb k a) eqn:E.
  - apply String.eqb_eq in E. subst. rewrite dict_get_not_in by exact Ha. reflexivity.
  - destruct (dict_get t k); reflexivity.
Qed.

Theorem request_headers_get (api_key : option string) (e : dict) (k : string) :
  NoDup (map fst e) ->
  dict_get (request_headers api_key (Some e)) k
  = match dict_get e k with
    | Some v => Some v
    | None =>
        if String.eqb k "X-N8N-API-KEY" then
          match api_key with Some key => if String.eqb key "" then None else Some key | None => None end
        else if String.eqb k "Content-Type" then Some "application/json" else None
    end.
Proof.
  intros Hn. unfold request_headers.
  assert (Hh : forall h, match e with [] => h | _ => dict_update h e end = dict_update h e)
    by (intros h; destruct e; reflexivity).
  rewrite Hh, dict_get_update, dict_get_rev by exact Hn.
  destruct (dict_get e k); [reflexivity|].
  destruct api_key as [key|]; [destruct (String.eqb key "")|];
    rewrite ?dict_get_set; cbn [dict_get];
    destruct (String.eqb k "X-N8N-API-KEY") eqn:E1; try reflexivity;
    apply String.eqb_eq in E1; subst k; reflexivity.
Qed.

Lemma request_headers_get_witness :
  dict_get (request_headers (Some "s3cr3t") (Some [("Content-Type", "text/plain")])) "Content-Type"
  = Some "text/plain".
Proof.
  refine (eq_trans (request_headers_get (Some "s3cr3t") [("Content-Type", "text/plain")]
                      "Content-Type" _) _).
  - repeat constructor. intros [].
  - reflexivity.
Defined.

End N8NFacts.
